(** * Grid search over SVC hyper-parameters: [trainModels] of dl.ipynb

    A shallow embedding of the cell that defines [trainModels] and of
    the few pandas operations it performs on the notebook's global data
    frames, followed by the properties of the selection loop.

    Modelling choices.
    - Python [float] accuracies are rationals ([Q]): [accuracy_score]
      returns the fraction of matching labels, never a NaN, and the
      only operation the loop performs on them is the comparison [<].
    - The scikit-learn calls (the [SVC] constructor, [fit], [predict],
      [accuracy_score]) are parameters of the development: each one
      either returns a value or raises a Python exception.
    - The notebook's globals ([trainingDF], [validationDF]), the
      standard output and the history of library calls form the world
      that [trainModels] runs in; an exception leaves the world as it
      was when it was raised. *)

From Stdlib Require Import List String ZArith QArith Bool Arith Lia.
Import ListNotations.
From Stdlib Require Import Sorted Permutation.

Local Open Scope string_scope.
Local Open Scope list_scope.

(** ** Python values and exceptions *)

Inductive Exn : Type :=
| KeyError (key : string)
| IndexError
| TypeError
| ValueError
| AttributeError.

Inductive Outcome (A : Type) : Type :=
| Return (a : A)
| Raise (e : Exn).

Arguments Return {A} a.
Arguments Raise {A} e.

(** One hyper-parameter value, and one configuration: the keyword
    arguments [hyper[idx]] unpacked into the [SVC] constructor. *)
Inductive Value : Type :=
| VInt (z : Z)
| VFloat (q : Q)
| VStr (s : string)
| VBool (b : bool).

Definition Config : Type := list (string * Value).

(** [ParameterGrid], seen through the two operations the loop uses:
    [__len__] and [__getitem__]. *)
Definition ParameterGrid : Type := list Config.

(** ** Data frames *)

Definition ndarray1 : Type := list Q.
Definition ndarray2 : Type := list (list Q).

Record DataFrame : Type := mkDataFrame {
  columns : list string;
  data : ndarray2          (* row major: one list per row *)
}.

Fixpoint index_of (label : string) (cols : list string) : option nat :=
  match cols with
  | [] => None
  | c :: cols' =>
      if String.eqb c label then Some O
      else option_map S (index_of label cols')
  end.

(** Keep the cells of [row] whose column is not called [label]. *)
Fixpoint drop_cells {A : Type} (label : string) (cols : list string)
         (row : list A) : list A :=
  match cols, row with
  | c :: cols', x :: row' =>
      if String.eqb c label then drop_cells label cols' row'
      else x :: drop_cells label cols' row'
  | _, _ => row
  end.

Definition drop_columns (label : string) (df : DataFrame) : DataFrame :=
  {| columns := filter (fun c => negb (String.eqb c label)) (columns df);
     data := map (drop_cells label (columns df)) (data df) |}.

(** The argument of the [KeyError] that [drop] raises for a label it
    does not find.  It is not the label but a message that names it,
    and the frame library chooses the words: pandas and Modin word it
    differently.  ([df[label]] raises [KeyError(label)] itself.) *)
Class FrameMessages : Type := {
  not_in_axis : string -> string
}.

(** [df.drop(labels=label, axis=1, inplace=...)]: the value returned and
    the receiver after the call.  With [inplace=True] pandas rewrites
    the receiver and returns [None]; with [inplace=False] it returns a
    new frame and leaves the receiver alone. *)
Definition DataFrame_drop {F : FrameMessages} (label : string)
           (inplace : bool) (df : DataFrame)
  : Outcome (option DataFrame * DataFrame) :=
  match index_of label (columns df) with
  | None => Raise (KeyError (not_in_axis label))
  | Some _ =>
      if inplace then Return (None, drop_columns label df)
      else Return (Some (drop_columns label df), df)
  end.

(** [df[label].to_numpy()] *)
Definition DataFrame_getitem (label : string) (df : DataFrame)
  : Outcome ndarray1 :=
  match index_of label (columns df) with
  | None => Raise (KeyError label)
  | Some i => Return (map (fun row => nth i row 0%Q) (data df))
  end.

(** [x.to_numpy()] where [x] is what [drop] returned. *)
Definition to_numpy (x : option DataFrame) : Outcome ndarray2 :=
  match x with
  | None => Raise AttributeError
  | Some df => Return (data df)
  end.

(** ** The world and its monad *)

(** A line written by [print]: "Best model is config {idx} w/
    {accuracy} accuracy on validation data". *)
Inductive Line : Type :=
| BestModelLine (idx : nat) (accuracy : Q).

(** A call into scikit-learn made while evaluating configuration [idx]. *)
Inductive Call : Type :=
| CallSVC (idx : nat)
| CallFit (idx : nat)
| CallPredict (idx : nat)
| CallScore (idx : nat).

Record World : Type := mkWorld {
  trainingDF : DataFrame;
  validationDF : DataFrame;
  stdout : list Line;
  calls : list Call
}.

Definition M (A : Type) : Type := World -> Outcome A * World.

Definition ret {A : Type} (a : A) : M A := fun w => (Return a, w).

Definition bind {A B : Type} (m : M A) (f : A -> M B) : M B :=
  fun w =>
    match m w with
    | (Return a, w') => f a w'
    | (Raise e, w') => (Raise e, w')
    end.

Notation "x <- m ;; k" := (bind m (fun x => k))
  (at level 61, m at next level, right associativity).
Notation "m ;;; k" := (bind m (fun _ => k))
  (at level 61, right associativity).

Definition lift {A : Type} (o : Outcome A) : M A := fun w => (o, w).

Definition write_lines (ls : list Line) (w : World) : World :=
  {| trainingDF := trainingDF w; validationDF := validationDF w;
     stdout := stdout w ++ ls; calls := calls w |}.

Definition log_calls (cs : list Call) (w : World) : World :=
  {| trainingDF := trainingDF w; validationDF := validationDF w;
     stdout := stdout w; calls := calls w ++ cs |}.

Definition print (l : Line) : M unit :=
  fun w => (Return tt, write_lines [l] w).

(** A library call: it is recorded, then it returns or raises. *)
Definition call {A : Type} (c : Call) (o : Outcome A) : M A :=
  fun w => (o, log_calls [c] w).

(** [trainingDF.drop(labels=label, axis=1, inplace=inplace)] on the
    global frame. *)
Definition trainingDF_drop {F : FrameMessages} (label : string)
           (inplace : bool) : M (option DataFrame) :=
  fun w =>
    match DataFrame_drop label inplace (trainingDF w) with
    | Raise e => (Raise e, w)
    | Return (r, df') =>
        (Return r,
         {| trainingDF := df'; validationDF := validationDF w;
            stdout := stdout w; calls := calls w |})
    end.

Definition validationDF_drop {F : FrameMessages} (label : string)
           (inplace : bool) : M (option DataFrame) :=
  fun w =>
    match DataFrame_drop label inplace (validationDF w) with
    | Raise e => (Raise e, w)
    | Return (r, df') =>
        (Return r,
         {| trainingDF := trainingDF w; validationDF := df';
            stdout := stdout w; calls := calls w |})
    end.

Definition trainingDF_getitem (label : string) : M ndarray1 :=
  fun w => (DataFrame_getitem label (trainingDF w), w).

Definition validationDF_getitem (label : string) : M ndarray1 :=
  fun w => (DataFrame_getitem label (validationDF w), w).

(** [bestModel[1] < accuracy] *)
Definition Qltb (x y : Q) : bool := negb (Qle_bool y x).

(** ** trainModels *)

(** The part of scikit-learn the cell uses: [SVC] objects, fitted or
    not, their constructor and methods, and [accuracy_score]. *)
Class Sklearn : Type := {
  SVC : Type;
  SVC_init : Config -> Outcome SVC;
  SVC_fit : SVC -> ndarray2 -> ndarray1 -> Outcome SVC;
  SVC_predict : SVC -> ndarray2 -> Outcome ndarray1;
  accuracy_score : ndarray1 -> ndarray1 -> Outcome Q
}.

Section TrainModels.

Context {F : FrameMessages} {L : Sklearn}.

(** [Tuple[int, float, SVC]] *)
Definition Candidate : Type := (nat * Q * SVC)%type.

Definition cand_idx (c : Candidate) : nat := fst (fst c).
Definition cand_accuracy (c : Candidate) : Q := snd (fst c).
Definition cand_svm (c : Candidate) : SVC := snd c.

(** [hyper[idx]] *)
Definition getitem (hyper : ParameterGrid) (idx : nat) : Outcome Config :=
  match nth_error hyper idx with
  | Some cfg => Return cfg
  | None => Raise IndexError
  end.

(** The four arrays computed before the loop. *)
Record Arrays : Type := mkArrays {
  features : ndarray2;
  classes : ndarray1;
  validationFeatures : ndarray2;
  validationClasses : ndarray1
}.

(** Lines 284-289. *)
Definition get_arrays : M Arrays :=
  d <- trainingDF_drop "class" false ;;
  features <- lift (to_numpy d) ;;
  classes <- trainingDF_getitem "class" ;;
  vd <- validationDF_drop "class" false ;;
  validationFeatures <- lift (to_numpy vd) ;;
  validationClasses <- validationDF_getitem "class" ;;
  ret (mkArrays features classes validationFeatures validationClasses).

(** Lines 306-312: the [if bestModel is None ... else ...] statement. *)
Definition store_best (bestModel : option Candidate) (idx : nat)
           (accuracy : Q) (svm : SVC) : M (option Candidate) :=
  match bestModel with
  | None =>
      print (BestModelLine idx accuracy) ;;;
      ret (Some (idx, accuracy, svm))
  | Some best =>
      if Qltb (cand_accuracy best) accuracy then
        print (BestModelLine idx accuracy) ;;;
        ret (Some (idx, accuracy, svm))
      else ret bestModel
  end.

(** Lines 293-312: the body of the [for] loop. [fit] updates the
    object in place; [svm'] is that object after the call. *)
Definition loop_body (hyper : ParameterGrid) (a : Arrays)
           (bestModel : option Candidate) (idx : nat)
  : M (option Candidate) :=
  cfg <- lift (getitem hyper idx) ;;
  svm <- call (CallSVC idx) (SVC_init cfg) ;;
  svm' <- call (CallFit idx) (SVC_fit svm (features a) (classes a)) ;;
  pred <- call (CallPredict idx) (SVC_predict svm' (validationFeatures a)) ;;
  accuracy <- call (CallScore idx) (accuracy_score (validationClasses a) pred) ;;
  store_best bestModel idx accuracy svm'.

(** [for idx in range(...)]: the indices still to visit and the
    current value of the local variable [bestModel]. *)
Fixpoint for_range (hyper : ParameterGrid) (a : Arrays) (idxs : list nat)
         (bestModel : option Candidate) : M (option Candidate) :=
  match idxs with
  | [] => ret bestModel
  | idx :: rest =>
      bestModel' <- loop_body hyper a bestModel idx ;;
      for_range hyper a rest bestModel'
  end.

Definition trainModels (hyper : ParameterGrid) : M (option Candidate) :=
  a <- get_arrays ;;
  for_range hyper a (seq 0 (List.length hyper)) None.

(** ** Vocabulary for the statements *)

(** What one iteration computes for a configuration taken on its own:
    its validation accuracy and the fitted model, or the exception of
    the first library call that raises. *)
Definition evaluate (a : Arrays) (cfg : Config) : Outcome (Q * SVC) :=
  match SVC_init cfg with
  | Raise e => Raise e
  | Return svm =>
      match SVC_fit svm (features a) (classes a) with
      | Raise e => Raise e
      | Return svm' =>
          match SVC_predict svm' (validationFeatures a) with
          | Raise e => Raise e
          | Return pred =>
              match accuracy_score (validationClasses a) pred with
              | Raise e => Raise e
              | Return accuracy => Return (accuracy, svm')
              end
          end
      end
  end.

(** The library calls made for configuration [idx], up to and
    including the first one that raises. *)
Definition calls_of (a : Arrays) (idx : nat) (cfg : Config) : list Call :=
  CallSVC idx ::
  match SVC_init cfg with
  | Raise _ => []
  | Return svm =>
      CallFit idx ::
      match SVC_fit svm (features a) (classes a) with
      | Raise _ => []
      | Return svm' =>
          CallPredict idx ::
          match SVC_predict svm' (validationFeatures a) with
          | Raise _ => []
          | Return _ => [CallScore idx]
          end
      end
  end.

(** A complete evaluation of configuration [idx]. *)
Definition full_calls (idx : nat) : list Call :=
  [CallSVC idx; CallFit idx; CallPredict idx; CallScore idx].

(** The frames hold a "class" column, as the notebook builds them. *)
Definition has_class (df : DataFrame) : Prop :=
  index_of "class" (columns df) <> None.

Definition well_formed (w : World) : Prop :=
  has_class (trainingDF w) /\ has_class (validationDF w).

(** The arrays that lines 284-289 compute in world [w]. *)
Definition arrays_of (w : World) : Arrays :=
  {| features := data (drop_columns "class" (trainingDF w));
     classes :=
       match DataFrame_getitem "class" (trainingDF w) with
       | Return c => c
       | Raise _ => []
       end;
     validationFeatures := data (drop_columns "class" (validationDF w));
     validationClasses :=
       match DataFrame_getitem "class" (validationDF w) with
       | Return c => c
       | Raise _ => []
       end |}.

(** Every configuration of the grid evaluates without raising. *)
Definition all_valid (a : Arrays) (hyper : ParameterGrid) : Prop :=
  forall cfg, In cfg hyper -> exists r, evaluate a cfg = Return r.

(** Configuration [k] is the first one whose evaluation raises, and it
    raises [e]. *)
Definition first_failure (a : Arrays) (hyper : ParameterGrid) (k : nat)
           (e : Exn) : Prop :=
  (exists cfg, nth_error hyper k = Some cfg /\ evaluate a cfg = Raise e) /\
  forall i cfg, (i < k)%nat -> nth_error hyper i = Some cfg ->
                exists r, evaluate a cfg = Return r.

(** The value of [bestModel] after the first [k] iterations of the
    loop started by [trainModels hyper] in world [w]. *)
Definition bestModel_after (hyper : ParameterGrid) (w : World) (k : nat)
  : Outcome (option Candidate) :=
  fst (for_range hyper (arrays_of w) (seq 0 k) None w).

(** The index of a library call. *)
Definition call_idx (c : Call) : nat :=
  match c with
  | CallSVC i | CallFit i | CallPredict i | CallScore i => i
  end.

(** The test of lines 306 and 310: the slot is empty, or it holds a
    strictly smaller accuracy. *)
Definition replaces (bestModel : option Candidate) (accuracy : Q) : bool :=
  match bestModel with
  | None => true
  | Some best => Qltb (cand_accuracy best) accuracy
  end.

(** The value [store_best] leaves in the slot. *)
Definition select (bestModel : option Candidate) (idx : nat)
           (accuracy : Q) (svm : SVC) : option Candidate :=
  if replaces bestModel accuracy then Some (idx, accuracy, svm)
  else bestModel.

(** The result, the library calls and the printed lines of the loop,
    as functions of the indices still to visit and of the slot. *)
Fixpoint scan (hyper : ParameterGrid) (a : Arrays) (idxs : list nat)
         (bestModel : option Candidate) : Outcome (option Candidate) :=
  match idxs with
  | [] => Return bestModel
  | idx :: rest =>
      match nth_error hyper idx with
      | None => Raise IndexError
      | Some cfg =>
          match evaluate a cfg with
          | Raise e => Raise e
          | Return (accuracy, svm) =>
              scan hyper a rest (select bestModel idx accuracy svm)
          end
      end
  end.

Fixpoint trace (hyper : ParameterGrid) (a : Arrays) (idxs : list nat)
  : list Call :=
  match idxs with
  | [] => []
  | idx :: rest =>
      match nth_error hyper idx with
      | None => []
      | Some cfg =>
          calls_of a idx cfg ++
          match evaluate a cfg with
          | Raise _ => []
          | Return _ => trace hyper a rest
          end
      end
  end.

Fixpoint printed (hyper : ParameterGrid) (a : Arrays) (idxs : list nat)
         (bestModel : option Candidate) : list Line :=
  match idxs with
  | [] => []
  | idx :: rest =>
      match nth_error hyper idx with
      | None => []
      | Some cfg =>
          match evaluate a cfg with
          | Raise _ => []
          | Return (accuracy, svm) =>
              (if replaces bestModel accuracy
               then [BestModelLine idx accuracy] else []) ++
              printed hyper a rest (select bestModel idx accuracy svm)
          end
      end
  end.

End TrainModels.

(** The grid of the worked example: [{"C": 0.1}, {"C": 1.0}]. *)
Definition cfg_C_0_1 : Config := [("C", VFloat (1 # 10))].
Definition cfg_C_1_0 : Config := [("C", VFloat 1)].
Definition example_grid : ParameterGrid := [cfg_C_0_1; cfg_C_1_0].

(** ** A small library instance to run the cell on

    A stand-in for scikit-learn with the behaviour that matters here:
    the constructor rejects unknown keyword arguments, [fit] rejects a
    non-positive [C] and inconsistent lengths, [predict] rejects an
    unfitted model and a wrong number of features, and
    [accuracy_score] is the fraction of matching labels.  The
    classifier itself is a toy: it answers with feature 0 when
    [C >= 1] and with feature 1 otherwise. *)
Module Demo.

(** The words pandas uses when [drop] does not find a label. *)
Definition frames : FrameMessages :=
  {| not_in_axis :=
       fun label => ("['" ++ label ++ "'] not found in axis")%string |}.

Record Model : Type := mkModel {
  params : Config;
  n_features_in : option nat
}.

Fixpoint lookup (key : string) (cfg : Config) : option Value :=
  match cfg with
  | [] => None
  | (k, v) :: cfg' => if String.eqb k key then Some v else lookup key cfg'
  end.

Definition known_keys : list string :=
  ["C"; "kernel"; "degree"; "probability"; "max_iter"].

Definition init (cfg : Config) : Outcome Model :=
  if forallb (fun kv => existsb (String.eqb (fst kv)) known_keys) cfg
  then Return {| params := cfg; n_features_in := None |}
  else Raise TypeError.

Definition C_of (cfg : Config) : Q :=
  match lookup "C" cfg with
  | Some (VFloat q) => q
  | Some (VInt z) => inject_Z z
  | _ => 1
  end.

Definition fit (m : Model) (X : ndarray2) (y : ndarray1) : Outcome Model :=
  if negb (List.length X =? List.length y)%nat then Raise ValueError
  else if Qle_bool (C_of (params m)) 0 then Raise ValueError
  else Return {| params := params m;
                 n_features_in := Some (List.length (hd [] X)) |}.

Definition predict (m : Model) (X : ndarray2) : Outcome ndarray1 :=
  match n_features_in m with
  | None => Raise ValueError
  | Some n =>
      if forallb (fun row => (List.length row =? n)%nat) X
      then Return (map (fun row =>
                          if Qle_bool 1 (C_of (params m))
                          then nth 0 row 0%Q else nth 1 row 0%Q) X)
      else Raise ValueError
  end.

Fixpoint matches (y_true y_pred : ndarray1) : nat :=
  match y_true, y_pred with
  | t :: y_true', p :: y_pred' =>
      (if Qeq_bool t p then 1 else 0) + matches y_true' y_pred'
  | _, _ => 0
  end.

Definition score (y_true y_pred : ndarray1) : Outcome Q :=
  if negb (List.length y_true =? List.length y_pred)%nat then Raise ValueError
  else Return (Z.of_nat (matches y_true y_pred)
                 # Pos.of_nat (List.length y_true)).

Definition lib : Sklearn :=
  {| SVC := Model; SVC_init := init; SVC_fit := fit;
     SVC_predict := predict; accuracy_score := score |}.

Definition training : DataFrame :=
  {| columns := ["f0"; "f1"; "class"];
     data := [[1; 1; 1]; [0; 1; 1]; [1; 0; 1]; [0; 0; 0]]%Q |}.

(** 25 rows of class 1: feature 0 agrees with the class on 23 of them,
    feature 1 on 20. *)
Definition validation : DataFrame :=
  {| columns := ["f0"; "f1"; "class"];
     data := map (fun i => [if (i <? 23)%nat then 1 else 0;
                            if (i <? 20)%nat then 1 else 0; 1]%Q)
                 (seq 0 25) |}.

(** A validation frame with one feature where training has two. *)
Definition validation_1_feature : DataFrame :=
  {| columns := ["f0"; "class"];
     data := [[1; 1]; [0; 1]]%Q |}.

Definition world : World :=
  {| trainingDF := training; validationDF := validation;
     stdout := []; calls := [] |}.

Definition mismatched_world : World :=
  {| trainingDF := training; validationDF := validation_1_feature;
     stdout := []; calls := [] |}.

(** A frame without a "class" column. *)
Definition unlabelled_world : World :=
  {| trainingDF := {| columns := ["f0"; "f1"]; data := [[1; 1]]%Q |};
     validationDF := validation; stdout := []; calls := [] |}.

(** [{"C": -1.0}]: rejected by [fit]. *)
Definition cfg_negative_C : Config := [("C", VFloat (-1))].

(** [{"gamma_typo": 1}]: rejected by the constructor. *)
Definition cfg_unknown_key : Config := [("gamma_typo", VInt 1)].

End Demo.

(** ** The cells around [trainModels] *)

Section Cells.

Context {F : FrameMessages} {L : Sklearn}.

(** Lines 325-328: [idx, accuracy, svm = trainModels(hyper=hyper)].
    Unpacking [None] raises [TypeError]. *)
Definition training_cell (hyper : ParameterGrid) : M Candidate :=
  bestModel <- trainModels hyper ;;
  match bestModel with
  | Some (idx, accuracy, svm) => ret (idx, accuracy, svm)
  | None => lift (Raise TypeError)
  end.

(** Lines 348-356: the accuracy of [svm] on the testing frame, the
    number that line 358 prints.  The frame is only read. *)
Definition testing_cell (testingDF : DataFrame) (svm : SVC) : Outcome Q :=
  match DataFrame_drop "class" false testingDF with
  | Raise e => Raise e
  | Return (d, _) =>
      match to_numpy d with
      | Raise e => Raise e
      | Return features =>
          match DataFrame_getitem "class" testingDF with
          | Raise e => Raise e
          | Return classes =>
              match SVC_predict svm features with
              | Raise e => Raise e
              | Return pred => accuracy_score classes pred
              end
          end
      end
  end.

(** The training cell followed by the testing cell. *)
Definition train_then_test (hyper : ParameterGrid) (testingDF : DataFrame)
  : M Q :=
  best <- training_cell hyper ;;
  lift (testing_cell testingDF (cand_svm best)).

End Cells.

(** Lines 225-233: the two splits and the three frames.
    [train_test_split], called with the notebook's fixed sizes and
    random state, is a function of the array alone. *)
Class Splitter : Type := {
  train_test_split : ndarray2 -> Outcome (ndarray2 * ndarray2)
}.

(** [Modin_DataFrame(data=arr, columns=column_names)]: the constructor
    rejects rows whose width is not the number of names. *)
Definition DataFrame_of_array (arr : ndarray2) (column_names : list string)
  : Outcome DataFrame :=
  if forallb (fun row => (List.length row =? List.length column_names)%nat) arr
  then Return {| columns := column_names; data := arr |}
  else Raise ValueError.

Definition and_then {A B : Type} (o : Outcome A) (f : A -> Outcome B)
  : Outcome B :=
  match o with
  | Return a => f a
  | Raise e => Raise e
  end.

Record Splits : Type := mkSplits {
  split_training : DataFrame;
  split_validation : DataFrame;
  split_testing : DataFrame
}.

Definition split_cell {S : Splitter} (scaledWineNDArray : ndarray2)
           (column_names : list string) : Outcome Splits :=
  and_then (train_test_split scaledWineNDArray) (fun '(training, temp) =>
  and_then (train_test_split temp) (fun '(validation, testing) =>
  and_then (DataFrame_of_array training column_names) (fun trainingDF =>
  and_then (DataFrame_of_array validation column_names) (fun validationDF =>
  and_then (DataFrame_of_array testing column_names) (fun testingDF =>
  Return (mkSplits trainingDF validationDF testingDF)))))).

(** The world in which the training cell runs after the split cell. *)
Definition world_of_splits (s : Splits) : World :=
  {| trainingDF := split_training s; validationDF := split_validation s;
     stdout := []; calls := [] |}.

(** Lines 147-194: the features are scaled, put in a fresh frame,
    the "class" column of the original frame is added, and the
    columns are given the names of the original frame.
    [StandardScaler().fit_transform] is a function of the array. *)
Class Scaler : Type := {
  fit_transform : ndarray2 -> Outcome ndarray2
}.

(** The scaled frame; a cell is a number or NaN ([None]). *)
Record ScaledFrame : Type := mkScaledFrame {
  scaled_columns : list string;
  scaled_data : list (list (option Q))
}.

(** [scaledWineDF["class"] = series] on a frame whose columns are
    numbered: a new last column, filled by row number, NaN where the
    series has no such row.  [r] is the number of the first row. *)
Fixpoint add_series (series : ndarray1) (r : nat) (rows : ndarray2)
  : list (list (option Q)) :=
  match rows with
  | [] => []
  | row :: rows' =>
      (map Some row ++ [nth_error series r]) :: add_series series (S r) rows'
  end.

(** Lines 189-191.  [DataFrame(data=scaled)] numbers its columns;
    [scaledWineDF.columns = names] needs one name per column.  An
    array is a list of rows, so an array without rows has no
    columns here. *)
Definition relabel (scaled : ndarray2) (series : ndarray1)
           (names : list string) : Outcome ScaledFrame :=
  if (List.length names =? S (List.length (hd [] scaled)))%nat
  then Return {| scaled_columns := names;
                 scaled_data := add_series series 0 scaled |}
  else Raise ValueError.

Definition scaling_cell {F : FrameMessages} {Sc : Scaler}
           (wineDF : DataFrame)
  : Outcome ScaledFrame :=
  and_then (DataFrame_drop "class" false wineDF) (fun '(d, _) =>
  and_then (to_numpy d) (fun wineFeaturesNDArrary =>
  and_then (fit_transform wineFeaturesNDArrary) (fun scaled =>
  and_then (DataFrame_getitem "class" wineDF) (fun series =>
  relabel scaled series (columns wineDF))))).

(** The column of a scaled frame found under a name. *)
Definition scaled_column (label : string) (f : ScaledFrame)
  : option (list (option Q)) :=
  match index_of label (scaled_columns f) with
  | None => None
  | Some i => Some (map (fun row => nth i row None) (scaled_data f))
  end.

(** ** More vocabulary *)

Definition line_idx (l : Line) : nat :=
  match l with BestModelLine idx _ => idx end.

Definition line_accuracy (l : Line) : Q :=
  match l with BestModelLine _ accuracy => accuracy end.

(** A later line announces a later configuration with a strictly
    higher accuracy. *)
Definition line_lt (l1 l2 : Line) : Prop :=
  (line_idx l1 < line_idx l2)%nat /\ line_accuracy l1 < line_accuracy l2.

(** Every row has one cell per column. *)
Definition rectangular (df : DataFrame) : Prop :=
  Forall (fun row => List.length row = List.length (columns df)) (data df).

(** Put [c] back at position [i] of [row]. *)
Definition insert_at (i : nat) (c : Q) (row : list Q) : list Q :=
  firstn i row ++ c :: skipn i row.

(** A splitter for the runs below: the first half and the rest; like
    scikit-learn it refuses to produce an empty training part. *)
Module DemoSplit.

Definition halves (X : ndarray2) : Outcome (ndarray2 * ndarray2) :=
  if (List.length X <? 2)%nat then Raise ValueError
  else Return (firstn (List.length X / 2) X, skipn (List.length X / 2) X).

Definition splitter : Splitter := {| train_test_split := halves |}.

Definition scaled : ndarray2 :=
  [[1; 1; 1]; [0; 1; 1]; [1; 0; 1]; [0; 0; 0]; [1; 1; 0]]%Q.

Definition names : list string := ["f0"; "f1"; "class"].

(** A scaler for the runs below: it doubles every cell. *)
Definition doubling : Scaler :=
  {| fit_transform := fun X => Return (map (map (Qmult 2)) X) |}.

Definition wine : DataFrame :=
  {| columns := ["f0"; "f1"; "class"];
     data := [[1; 5; 7]; [2; 6; 8]]%Q |}.

(** The same data with the "class" column first. *)
Definition wine_class_first : DataFrame :=
  {| columns := ["class"; "f0"; "f1"];
     data := [[7; 1; 5]; [8; 2; 6]]%Q |}.

End DemoSplit.

(** ** The loop, step by step *)

Section Properties.

Context {F : FrameMessages} {L : Sklearn}.

Lemma log_calls_nil (w : World) : log_calls [] w = w.
Proof. destruct w; unfold log_calls; simpl. now rewrite app_nil_r. Qed.

Lemma write_lines_nil (w : World) : write_lines [] w = w.
Proof. destruct w; unfold write_lines; simpl. now rewrite app_nil_r. Qed.

Lemma log_calls_app (cs1 cs2 : list Call) (w : World) :
  log_calls cs2 (log_calls cs1 w) = log_calls (cs1 ++ cs2) w.
Proof. unfold log_calls; simpl. now rewrite app_assoc. Qed.

Lemma write_lines_app (l1 l2 : list Line) (w : World) :
  write_lines l2 (write_lines l1 w) = write_lines (l1 ++ l2) w.
Proof. unfold write_lines; simpl. now rewrite app_assoc. Qed.

Lemma write_log_comm (ls : list Line) (cs : list Call) (w : World) :
  log_calls cs (write_lines ls w) = write_lines ls (log_calls cs w).
Proof. reflexivity. Qed.

(** The prelude reads the two frames and changes nothing. *)
Lemma get_arrays_run (w : World) :
  well_formed w -> get_arrays w = (Return (arrays_of w), w).
Proof.
  intros [Ht Hv]. unfold has_class in Ht, Hv.
  destruct w as [t v out cs]; simpl in Ht, Hv.
  destruct (index_of "class" (columns t)) as [i|] eqn:Et; [|congruence].
  destruct (index_of "class" (columns v)) as [j|] eqn:Ev; [|congruence].
  unfold get_arrays, bind, trainingDF_drop, validationDF_drop,
    trainingDF_getitem, validationDF_getitem, lift, ret, arrays_of,
    DataFrame_drop, DataFrame_getitem; simpl.
  rewrite Et; simpl. rewrite Et, Ev; simpl. rewrite Ev. reflexivity.
Qed.

Lemma get_arrays_raises (w : World) :
  ~ well_formed w ->
  get_arrays w = (Raise (KeyError (not_in_axis "class")), w).
Proof.
  intros Hn. unfold well_formed, has_class in Hn.
  destruct w as [t v out cs]; simpl in Hn.
  unfold get_arrays, bind, trainingDF_drop, validationDF_drop,
    trainingDF_getitem, validationDF_getitem, lift, ret,
    DataFrame_drop, DataFrame_getitem; simpl.
  destruct (index_of "class" (columns t)) as [i|] eqn:Et; simpl;
    [|reflexivity].
  rewrite ?Et; simpl.
  destruct (index_of "class" (columns v)) as [j|] eqn:Ev; simpl;
    [|reflexivity].
  exfalso; apply Hn; split; congruence.
Qed.

Lemma well_formed_dec (w : World) : well_formed w \/ ~ well_formed w.
Proof.
  unfold well_formed, has_class.
  destruct (index_of "class" (columns (trainingDF w)));
    destruct (index_of "class" (columns (validationDF w)));
    first [ left; split; congruence | right; intros [? ?]; congruence ].
Qed.

Lemma store_best_run (best : option Candidate) (idx : nat) (accuracy : Q)
      (svm : SVC) (w : World) :
  store_best best idx accuracy svm w =
  (Return (select best idx accuracy svm),
   write_lines (if replaces best accuracy
                then [BestModelLine idx accuracy] else []) w).
Proof.
  unfold store_best, select, replaces.
  destruct best as [b|]; [destruct (Qltb (cand_accuracy b) accuracy)|];
    unfold bind, print, ret; simpl; try reflexivity.
  now rewrite write_lines_nil.
Qed.

Lemma loop_body_run (hyper : ParameterGrid) (a : Arrays)
      (best : option Candidate) (idx : nat) (cfg : Config) (w : World) :
  nth_error hyper idx = Some cfg ->
  loop_body hyper a best idx w =
  match evaluate a cfg with
  | Raise e => (Raise e, log_calls (calls_of a idx cfg) w)
  | Return (accuracy, svm) =>
      (Return (select best idx accuracy svm),
       write_lines (if replaces best accuracy
                    then [BestModelLine idx accuracy] else [])
                   (log_calls (full_calls idx) w))
  end.
Proof.
  intros Hcfg.
  unfold loop_body, getitem, evaluate, calls_of, full_calls, bind, lift, call.
  rewrite Hcfg.
  destruct (SVC_init cfg) as [svm|e]; [|reflexivity].
  destruct (SVC_fit svm (features a) (classes a)) as [svm'|e];
    [|now rewrite log_calls_app].
  destruct (SVC_predict svm' (validationFeatures a)) as [pred|e];
    [|now rewrite !log_calls_app].
  destruct (accuracy_score (validationClasses a) pred) as [accuracy|e];
    [|now rewrite !log_calls_app].
  rewrite store_best_run, !log_calls_app. reflexivity.
Qed.

Lemma loop_body_out_of_range (hyper : ParameterGrid) (a : Arrays)
      (best : option Candidate) (idx : nat) (w : World) :
  nth_error hyper idx = None ->
  loop_body hyper a best idx w = (Raise IndexError, w).
Proof.
  intros Hn. unfold loop_body, getitem, bind, lift. now rewrite Hn.
Qed.

Lemma calls_of_valid (a : Arrays) (idx : nat) (cfg : Config)
      (r : Q * SVC) :
  evaluate a cfg = Return r -> calls_of a idx cfg = full_calls idx.
Proof.
  unfold evaluate, calls_of, full_calls.
  destruct (SVC_init cfg) as [svm|e]; [|discriminate].
  destruct (SVC_fit svm (features a) (classes a)) as [svm'|e];
    [|discriminate].
  destruct (SVC_predict svm' (validationFeatures a)) as [pred|e];
    [|discriminate].
  reflexivity.
Qed.

(** The loop computes [scan], makes the calls of [trace] and prints
    the lines of [printed]; it touches nothing else. *)
Lemma for_range_run (hyper : ParameterGrid) (a : Arrays) (idxs : list nat) :
  forall (best : option Candidate) (w : World),
    for_range hyper a idxs best w =
    (scan hyper a idxs best,
     write_lines (printed hyper a idxs best)
                 (log_calls (trace hyper a idxs) w)).
Proof.
  induction idxs as [|idx rest IH]; intros best w;
    cbn [for_range scan trace printed].
  - unfold ret. now rewrite log_calls_nil, write_lines_nil.
  - unfold bind.
    destruct (nth_error hyper idx) as [cfg|] eqn:Hcfg.
    + rewrite (loop_body_run _ _ _ _ _ _ Hcfg).
      destruct (evaluate a cfg) as [[accuracy svm]|e] eqn:Hev.
      * rewrite IH, (calls_of_valid _ _ _ _ Hev). f_equal.
        now rewrite write_log_comm, log_calls_app, write_lines_app.
      * now rewrite app_nil_r, write_lines_nil.
    + rewrite (loop_body_out_of_range _ _ _ _ _ Hcfg).
      now rewrite log_calls_nil, write_lines_nil.
Qed.

Lemma trainModels_run (hyper : ParameterGrid) (w : World) :
  well_formed w ->
  trainModels hyper w =
  (scan hyper (arrays_of w) (seq 0 (List.length hyper)) None,
   write_lines (printed hyper (arrays_of w) (seq 0 (List.length hyper)) None)
               (log_calls (trace hyper (arrays_of w)
                                 (seq 0 (List.length hyper))) w)).
Proof.
  intros Hw. unfold trainModels, bind.
  now rewrite (get_arrays_run w Hw), for_range_run.
Qed.

Lemma trainModels_unlabelled (hyper : ParameterGrid) (w : World) :
  ~ well_formed w ->
  trainModels hyper w = (Raise (KeyError (not_in_axis "class")), w).
Proof.
  intros Hw. unfold trainModels, bind.
  now rewrite (get_arrays_raises w Hw).
Qed.

(** ** The comparison *)

Lemma Qltb_lt (x y : Q) : Qltb x y = true <-> x < y.
Proof.
  unfold Qltb. rewrite negb_true_iff. split.
  - intros H. apply Qnot_le_lt. intros Hle.
    apply Qle_bool_iff in Hle. congruence.
  - intros H. destruct (Qle_bool y x) eqn:E; [|reflexivity].
    apply Qle_bool_iff in E. exfalso. exact (Qlt_not_le _ _ H E).
Qed.

Lemma Qltb_ge (x y : Q) : Qltb x y = false <-> y <= x.
Proof.
  unfold Qltb. rewrite negb_false_iff. apply Qle_bool_iff.
Qed.

(** ** The scan over a range of indices *)

Ltac same_config :=
  match goal with
  | H1 : nth_error ?h ?i = Some ?c1, H2 : nth_error ?h ?i = Some ?c2 |- _ =>
      rewrite H1 in H2; injection H2 as <-
  end;
  match goal with
  | H1 : evaluate ?a ?c = Return _, H2 : evaluate ?a ?c = Return _ |- _ =>
      rewrite H1 in H2; injection H2 as <- <-
  end.

Lemma scan_seq_max (hyper : ParameterGrid) (a : Arrays) (n : nat) :
  forall (s : nat) (best : option Candidate) (c : Candidate),
    scan hyper a (seq s n) best = Return (Some c) ->
    (forall b, best = Some b -> cand_accuracy b <= cand_accuracy c) /\
    (forall i cfg acc svm,
        (s <= i < s + n)%nat -> nth_error hyper i = Some cfg ->
        evaluate a cfg = Return (acc, svm) -> acc <= cand_accuracy c) /\
    (best = Some c \/
     ((s <= cand_idx c < s + n)%nat /\
      (exists cfg, nth_error hyper (cand_idx c) = Some cfg /\
                   evaluate a cfg = Return (cand_accuracy c, cand_svm c)) /\
      (forall b, best = Some b -> cand_accuracy b < cand_accuracy c) /\
      (forall i cfg acc svm,
          (s <= i < cand_idx c)%nat -> nth_error hyper i = Some cfg ->
          evaluate a cfg = Return (acc, svm) -> acc < cand_accuracy c))).
Proof.
  induction n as [|n IH]; intros s best c Hscan; cbn [seq scan] in Hscan.
  - injection Hscan as ->. repeat split.
    + intros b [= <-]. apply Qle_refl.
    + intros; lia.
    + now left.
  - destruct (nth_error hyper s) as [cfg0|] eqn:Hcfg0; [|discriminate].
    destruct (evaluate a cfg0) as [[acc0 svm0]|e] eqn:Hev0; [|discriminate].
    apply IH in Hscan as (H1 & H2 & H3).
    unfold select in H1, H3.
    destruct (replaces best acc0) eqn:Hr.
    + specialize (H1 _ eq_refl). unfold cand_accuracy at 1 in H1; simpl in H1.
      assert (Hb : forall b, best = Some b -> cand_accuracy b < acc0).
      { intros b ->. simpl in Hr. now apply Qltb_lt. }
      split; [|split].
      * intros b Eb. apply Qlt_le_weak.
        eapply Qlt_le_trans; [apply (Hb _ Eb)|exact H1].
      * intros i cfg acc svm Hi Hc He.
        destruct (Nat.eq_dec i s) as [->|Hne].
        -- same_config. exact H1.
        -- apply (H2 i cfg acc svm); [lia|assumption|assumption].
      * right. destruct H3 as [[= <-]|(Hr1 & Hr2 & Hr3 & Hr4)].
        -- unfold cand_idx, cand_accuracy, cand_svm; simpl.
           split; [lia|]. split; [now exists cfg0|]. split; [exact Hb|].
           intros; lia.
        -- specialize (Hr3 _ eq_refl).
           unfold cand_accuracy at 1 in Hr3; simpl in Hr3.
           split; [lia|]. split; [exact Hr2|]. split.
           ++ intros b Eb. eapply Qlt_trans; [apply (Hb _ Eb)|exact Hr3].
           ++ intros i cfg acc svm Hi Hc He.
              destruct (Nat.eq_dec i s) as [->|Hne].
              ** same_config. exact Hr3.
              ** apply (Hr4 i cfg acc svm); [lia|assumption|assumption].
    + destruct best as [b|]; [|discriminate].
      simpl in Hr. apply Qltb_ge in Hr.
      pose proof (H1 _ eq_refl) as Hbc.
      split; [|split].
      * intros b' [= <-]. exact Hbc.
      * intros i cfg acc svm Hi Hc He.
        destruct (Nat.eq_dec i s) as [->|Hne].
        -- same_config. eapply Qle_trans; [exact Hr|exact Hbc].
        -- apply (H2 i cfg acc svm); [lia|assumption|assumption].
      * destruct H3 as [E|(Hr1 & Hr2 & Hr3 & Hr4)]; [now left|right].
        split; [lia|]. split; [exact Hr2|]. split; [exact Hr3|].
        intros i cfg acc svm Hi Hc He.
        destruct (Nat.eq_dec i s) as [->|Hne].
        -- same_config. eapply Qle_lt_trans; [exact Hr|apply (Hr3 _ eq_refl)].
        -- apply (Hr4 i cfg acc svm); [lia|assumption|assumption].
Qed.

(** When every index of the range evaluates, the scan returns, and it
    returns a candidate unless it started empty on an empty range. *)
Lemma scan_seq_returns (hyper : ParameterGrid) (a : Arrays) (n : nat) :
  forall (s : nat) (best : option Candidate),
    (forall i, (s <= i < s + n)%nat ->
               exists cfg r, nth_error hyper i = Some cfg /\
                             evaluate a cfg = Return r) ->
    exists best', scan hyper a (seq s n) best = Return best' /\
                  (best' = None -> best = None /\ n = 0%nat).
Proof.
  induction n as [|n IH]; intros s best Hvalid; cbn [seq scan].
  - exists best. split; [reflexivity|]. intros ->. now split.
  - destruct (Hvalid s ltac:(lia)) as (cfg & [acc svm] & Hcfg & Hev).
    rewrite Hcfg, Hev.
    destruct (IH (S s) (select best s acc svm)) as (best' & Hs & Hnone).
    { intros i Hi. apply Hvalid. lia. }
    exists best'. split; [exact Hs|].
    intros E. destruct (Hnone E) as [Hsel _]. exfalso.
    unfold select in Hsel.
    destruct (replaces best acc) eqn:Hr; [discriminate|].
    subst best. discriminate.
Qed.

(** A range whose first failing index is [k] raises what [k] raises. *)
Lemma scan_seq_failure (hyper : ParameterGrid) (a : Arrays) (n : nat) :
  forall (s k : nat) (best : option Candidate) (cfg : Config) (e : Exn),
    (s <= k < s + n)%nat ->
    nth_error hyper k = Some cfg -> evaluate a cfg = Raise e ->
    (forall i cfg', (s <= i < k)%nat -> nth_error hyper i = Some cfg' ->
                    exists r, evaluate a cfg' = Return r) ->
    scan hyper a (seq s n) best = Raise e.
Proof.
  induction n as [|n IH]; intros s k best cfg e Hk Hcfg Hev Hbefore;
    [lia|]. cbn [seq scan].
  destruct (Nat.eq_dec k s) as [->|Hne].
  - now rewrite Hcfg, Hev.
  - assert (Hs : (s < List.length hyper)%nat).
    { assert (k < List.length hyper)%nat
        by (apply nth_error_Some; congruence). lia. }
    destruct (nth_error hyper s) as [cfg0|] eqn:Hcfg0;
      [|apply nth_error_None in Hcfg0; lia].
    destruct (Hbefore s cfg0 ltac:(lia) Hcfg0) as ([acc svm] & Hev0).
    rewrite Hev0.
    apply (IH (S s) k _ cfg e); try assumption; [lia|].
    intros i cfg' Hi. apply Hbefore. lia.
Qed.

Lemma scan_app (hyper : ParameterGrid) (a : Arrays) (l1 l2 : list nat) :
  forall best : option Candidate,
    scan hyper a (l1 ++ l2) best =
    match scan hyper a l1 best with
    | Return best' => scan hyper a l2 best'
    | Raise e => Raise e
    end.
Proof.
  induction l1 as [|idx l1 IH]; intros best; cbn [app scan];
    [reflexivity|].
  destruct (nth_error hyper idx) as [cfg|]; [|reflexivity].
  destruct (evaluate a cfg) as [[acc svm]|e]; [apply IH|reflexivity].
Qed.

(** The loop over a range is the loop over its first part followed by
    the loop over the rest, started from the slot the first part left. *)
Lemma for_range_app (hyper : ParameterGrid) (a : Arrays) (l1 l2 : list nat) :
  forall (best : option Candidate) (w : World),
    for_range hyper a (l1 ++ l2) best w =
    bind (for_range hyper a l1 best) (for_range hyper a l2) w.
Proof.
  induction l1 as [|idx l1 IH]; intros best w; cbn [app for_range].
  - reflexivity.
  - unfold bind in IH |- *.
    destruct (loop_body hyper a best idx w) as [[best'|e] w'];
      [|reflexivity].
    apply IH.
Qed.

Lemma all_valid_range (hyper : ParameterGrid) (a : Arrays) :
  all_valid a hyper ->
  forall i, (0 <= i < 0 + List.length hyper)%nat ->
            exists cfg r, nth_error hyper i = Some cfg /\
                          evaluate a cfg = Return r.
Proof.
  intros Hall i Hi.
  destruct (nth_error hyper i) as [cfg|] eqn:Hcfg;
    [|apply nth_error_None in Hcfg; lia].
  destruct (Hall cfg (nth_error_In _ _ Hcfg)) as [r Hr].
  now exists cfg, r.
Qed.

Lemma In_grid_index (hyper : ParameterGrid) (cfg : Config) :
  In cfg hyper ->
  exists i, (0 <= i < 0 + List.length hyper)%nat /\
            nth_error hyper i = Some cfg.
Proof.
  intros Hin. destruct (In_nth_error _ _ Hin) as [i Hi].
  exists i. split; [|exact Hi].
  assert (i < List.length hyper)%nat by (apply nth_error_Some; congruence).
  lia.
Qed.

(** ** The calls and the printed lines over a range *)

Lemma trace_seq_valid (hyper : ParameterGrid) (a : Arrays) (n : nat) :
  forall s : nat,
    (forall i, (s <= i < s + n)%nat ->
               exists cfg r, nth_error hyper i = Some cfg /\
                             evaluate a cfg = Return r) ->
    trace hyper a (seq s n) = flat_map full_calls (seq s n).
Proof.
  induction n as [|n IH]; intros s Hvalid; cbn [seq trace flat_map];
    [reflexivity|].
  destruct (Hvalid s ltac:(lia)) as (cfg & r & Hcfg & Hev).
  rewrite Hcfg, Hev, (calls_of_valid _ _ _ _ Hev), IH; [reflexivity|].
  intros i Hi. apply Hvalid. lia.
Qed.

Lemma trace_seq_failure (hyper : ParameterGrid) (a : Arrays) (n : nat) :
  forall (s k : nat) (cfg : Config) (e : Exn),
    (s <= k < s + n)%nat ->
    nth_error hyper k = Some cfg -> evaluate a cfg = Raise e ->
    (forall i cfg', (s <= i < k)%nat -> nth_error hyper i = Some cfg' ->
                    exists r, evaluate a cfg' = Return r) ->
    trace hyper a (seq s n) =
    flat_map full_calls (seq s (k - s)) ++ calls_of a k cfg.
Proof.
  induction n as [|n IH]; intros s k cfg e Hk Hcfg Hev Hbefore; [lia|].
  cbn [seq trace].
  destruct (Nat.eq_dec k s) as [->|Hne].
  - rewrite Hcfg, Hev, Nat.sub_diag, app_nil_r. reflexivity.
  - assert (Hs : (s < List.length hyper)%nat).
    { assert (k < List.length hyper)%nat
        by (apply nth_error_Some; congruence). lia. }
    destruct (nth_error hyper s) as [cfg0|] eqn:Hcfg0;
      [|apply nth_error_None in Hcfg0; lia].
    destruct (Hbefore s cfg0 ltac:(lia) Hcfg0) as (r & Hev0).
    rewrite Hev0, (calls_of_valid _ _ _ _ Hev0).
    rewrite (IH (S s) k cfg e); try assumption; try lia.
    + replace (k - s)%nat with (S (k - S s)) by lia.
      cbn [seq flat_map]. now rewrite <- app_assoc.
    + intros i cfg' Hi. apply Hbefore. lia.
Qed.

Lemma calls_of_idx (a : Arrays) (idx : nat) (cfg : Config) (c : Call) :
  In c (calls_of a idx cfg) -> call_idx c = idx.
Proof.
  unfold calls_of.
  destruct (SVC_init cfg) as [svm|e];
    [destruct (SVC_fit svm (features a) (classes a)) as [svm'|e'];
     [destruct (SVC_predict svm' (validationFeatures a)) as [pred|e'']|]|];
    simpl; intuition (subst; reflexivity).
Qed.

Lemma full_calls_idx (s n : nat) (c : Call) :
  In c (flat_map full_calls (seq s n)) -> (s <= call_idx c < s + n)%nat.
Proof.
  intros Hin. apply in_flat_map in Hin as (i & Hi & Hc).
  apply in_seq in Hi.
  simpl in Hc. intuition (subst; simpl; lia).
Qed.


(** ** Selection *)

(** C1, as the code has it: for every non-empty grid all of whose
    configurations evaluate without raising, [trainModels] returns a
    candidate; it is the evaluation of the configuration at its index,
    and its accuracy is greater than or equal to the validation
    accuracy of every configuration of the grid. *)
Theorem trainModels_returns_maximum (hyper : ParameterGrid) (w : World) :
  well_formed w ->
  hyper <> [] ->
  all_valid (arrays_of w) hyper ->
  exists c : Candidate,
    fst (trainModels hyper w) = Return (Some c) /\
    (exists cfg, nth_error hyper (cand_idx c) = Some cfg /\
                 evaluate (arrays_of w) cfg
                 = Return (cand_accuracy c, cand_svm c)) /\
    forall cfg acc svm,
      In cfg hyper -> evaluate (arrays_of w) cfg = Return (acc, svm) ->
      acc <= cand_accuracy c.
Proof.
  intros Hw Hne Hall.
  rewrite (trainModels_run hyper w Hw); cbn [fst].
  destruct (scan_seq_returns hyper (arrays_of w) (List.length hyper) 0 None
              (all_valid_range _ _ Hall)) as (best' & Hscan & Hnone).
  destruct best' as [c|].
  - exists c. split; [exact Hscan|].
    destruct (scan_seq_max _ _ _ _ _ _ Hscan) as (_ & Hmax & Hsrc).
    split.
    + destruct Hsrc as [E|(_ & Hcfg & _)]; [discriminate|exact Hcfg].
    + intros cfg acc svm Hin Hev.
      destruct (In_grid_index _ _ Hin) as (i & Hi & Hcfg).
      exact (Hmax i cfg acc svm Hi Hcfg Hev).
  - destruct (Hnone eq_refl) as [_ Hlen].
    destruct hyper; [congruence|discriminate].
Qed.

(** C4, as the code has it: in a grid every configuration of which
    evaluates without raising, and whose configurations [i < j] have
    equal validation accuracies that are maximal in the grid (none
    has an accuracy above theirs), [trainModels] returns a
    candidate of that accuracy whose index is at most [i], hence never
    [j]; every configuration before the returned one has a strictly
    smaller accuracy, so the returned one is the first with the maximal
    accuracy, and it is [i] itself when no earlier configuration ties
    with it. *)
Theorem first_maximum_wins (hyper : ParameterGrid) (w : World)
        (i j : nat) (cfg_i cfg_j : Config) (acc_i acc_j : Q)
        (svm_i svm_j : SVC) :
  well_formed w ->
  (i < j)%nat ->
  nth_error hyper i = Some cfg_i ->
  nth_error hyper j = Some cfg_j ->
  evaluate (arrays_of w) cfg_i = Return (acc_i, svm_i) ->
  evaluate (arrays_of w) cfg_j = Return (acc_j, svm_j) ->
  acc_i == acc_j ->
  (forall cfg, In cfg hyper ->
               exists acc svm, evaluate (arrays_of w) cfg = Return (acc, svm) /\
                               acc <= acc_i) ->
  exists c : Candidate,
    fst (trainModels hyper w) = Return (Some c) /\
    (cand_idx c <= i)%nat /\ cand_idx c <> j /\
    cand_accuracy c == acc_i /\
    (forall k cfg acc svm,
        (k < cand_idx c)%nat -> nth_error hyper k = Some cfg ->
        evaluate (arrays_of w) cfg = Return (acc, svm) ->
        acc < cand_accuracy c) /\
    ((forall k cfg acc svm,
         (k < i)%nat -> nth_error hyper k = Some cfg ->
         evaluate (arrays_of w) cfg = Return (acc, svm) -> ~ acc == acc_i) ->
     c = (i, acc_i, svm_i)).
Proof.
  intros Hw Hij Hci Hcj Hei Hej Heq Hmax.
  assert (Hall : all_valid (arrays_of w) hyper).
  { intros cfg Hin. destruct (Hmax cfg Hin) as (acc & svm & Hev & _).
    now exists (acc, svm). }
  assert (Hlen : (i < List.length hyper)%nat)
    by (apply nth_error_Some; congruence).
  rewrite (trainModels_run hyper w Hw); cbn [fst].
  destruct (scan_seq_returns hyper (arrays_of w) (List.length hyper) 0 None
              (all_valid_range _ _ Hall)) as (best' & Hscan & Hnone).
  destruct best' as [c|]; [|destruct (Hnone eq_refl); lia].
  exists c. split; [exact Hscan|].
  destruct (scan_seq_max _ _ _ _ _ _ Hscan) as (_ & Hge & Hsrc).
  destruct Hsrc as [E|(Hrange & (cfg_c & Hcc & Hec) & _ & Hbefore)];
    [discriminate|].
  assert (Hle : cand_accuracy c <= acc_i).
  { destruct (Hmax cfg_c (nth_error_In _ _ Hcc)) as (acc & svm & Hev & Hacc).
    rewrite Hec in Hev. injection Hev as <- _. exact Hacc. }
  assert (Hge_i : acc_i <= cand_accuracy c).
  { apply (Hge i cfg_i acc_i svm_i); [lia|assumption|assumption]. }
  assert (Hidx : (cand_idx c <= i)%nat).
  { destruct (le_lt_dec (cand_idx c) i) as [Hl|Hl]; [exact Hl|].
    exfalso.
    pose proof (Hbefore i cfg_i acc_i svm_i ltac:(lia) Hci Hei) as Hlt.
    exact (Qlt_not_le _ _ Hlt Hle). }
  split; [exact Hidx|]. split; [lia|].
  split; [now apply Qle_antisym|].
  split.
  - intros k cfg acc svm Hk. apply Hbefore. lia.
  - intros Hfirst.
    assert (Hi : cand_idx c = i).
    { destruct (Nat.eq_dec (cand_idx c) i) as [E|Hne]; [exact E|].
      exfalso.
      apply (Hfirst (cand_idx c) cfg_c (cand_accuracy c) (cand_svm c));
        [lia|assumption|assumption|now apply Qle_antisym]. }
    rewrite Hi, Hci in Hcc. injection Hcc as <-.
    rewrite Hei in Hec. injection Hec as Ha Hs.
    destruct c as [[ci ca] cs].
    unfold cand_idx, cand_accuracy, cand_svm in *; simpl in *.
    congruence.
Qed.

(** C9: on the grid [{"C": 0.1}, {"C": 1.0}], when the two
    configurations evaluate to validation accuracies 0.80 and 0.92,
    [trainModels] returns index 1, the accuracy of [{"C": 1.0}] and
    the model fitted with it. *)
Theorem example_grid_selects_second (w : World) (a0 a1 : Q) (m0 m1 : SVC) :
  well_formed w ->
  evaluate (arrays_of w) cfg_C_0_1 = Return (a0, m0) ->
  evaluate (arrays_of w) cfg_C_1_0 = Return (a1, m1) ->
  a0 == 80 # 100 ->
  a1 == 92 # 100 ->
  fst (trainModels example_grid w) = Return (Some (1%nat, a1, m1)).
Proof.
  intros Hw H0 H1 E0 E1.
  rewrite (trainModels_run _ w Hw); cbn [fst].
  unfold example_grid. cbn [List.length seq scan nth_error].
  rewrite H0, H1. unfold select, replaces, cand_accuracy; cbn [fst snd].
  assert (Hlt : Qltb a0 a1 = true).
  { apply Qltb_lt. rewrite E0, E1. reflexivity. }
  now rewrite Hlt.
Qed.

(** ** Failures *)

Lemma first_failure_range (hyper : ParameterGrid) (a : Arrays) (k : nat)
      (e : Exn) :
  first_failure a hyper k e -> (0 <= k < 0 + List.length hyper)%nat.
Proof.
  intros [(cfg & Hcfg & _) _].
  assert (k < List.length hyper)%nat by (apply nth_error_Some; congruence).
  lia.
Qed.

Lemma first_failure_scan (hyper : ParameterGrid) (a : Arrays) (k n : nat)
      (e : Exn) (best : option Candidate) :
  first_failure a hyper k e -> (k < n)%nat ->
  scan hyper a (seq 0 n) best = Raise e.
Proof.
  intros [(cfg & Hcfg & Hev) Hbefore] Hk.
  apply (scan_seq_failure hyper a n 0 k best cfg e);
    [lia|assumption|assumption|].
  intros i cfg' Hi. apply Hbefore. lia.
Qed.

Lemma first_failure_trace (hyper : ParameterGrid) (a : Arrays) (k : nat)
      (e : Exn) (cfg : Config) :
  nth_error hyper k = Some cfg ->
  first_failure a hyper k e ->
  trace hyper a (seq 0 (List.length hyper)) =
  flat_map full_calls (seq 0 k) ++ calls_of a k cfg.
Proof.
  intros Hcfg Hff. pose proof (first_failure_range _ _ _ _ Hff) as Hk.
  destruct Hff as [(cfg' & Hcfg' & Hev) Hbefore].
  rewrite Hcfg in Hcfg'. injection Hcfg' as <-.
  rewrite (trace_seq_failure hyper a _ 0 k cfg e);
    [now rewrite Nat.sub_0_r|lia|assumption|assumption|].
  intros i cfg' Hi. apply Hbefore. lia.
Qed.

(** C2, as the code has it: when configuration [k] is the first whose
    evaluation raises, the loop stops there.  The exception reaches
    the caller, iteration [k] ends without a slot value, and no call
    is made for a configuration after [k]: nothing is selected among
    the remaining configurations. *)
Theorem failing_configuration_aborts (hyper : ParameterGrid) (w : World)
        (k : nat) (e : Exn) :
  well_formed w ->
  first_failure (arrays_of w) hyper k e ->
  fst (trainModels hyper w) = Raise e /\
  bestModel_after hyper w (S k) = Raise e /\
  forall c, In c (calls (snd (trainModels hyper w))) ->
            In c (calls w) \/ (call_idx c <= k)%nat.
Proof.
  intros Hw Hff. pose proof (first_failure_range _ _ _ _ Hff) as Hk.
  rewrite (trainModels_run hyper w Hw); cbn [fst snd].
  split; [apply (first_failure_scan _ _ k); [assumption|lia]|].
  split.
  - unfold bestModel_after. rewrite for_range_run; cbn [fst].
    apply (first_failure_scan _ _ k); [assumption|lia].
  - intros c Hin. simpl in Hin.
    apply in_app_or in Hin as [Hin|Hin]; [now left|right].
    destruct Hff as [(cfg & Hcfg & Hev) Hbefore].
    rewrite (first_failure_trace hyper _ k e cfg Hcfg) in Hin
      by (split; [now exists cfg|exact Hbefore]).
    apply in_app_or in Hin as [Hin|Hin].
    + apply full_calls_idx in Hin. lia.
    + apply calls_of_idx in Hin. lia.
Qed.

(** C10, as the code has it: when every configuration evaluates
    without raising, [trainModels] constructs, fits, predicts with and
    scores each configuration exactly once, in index order, through
    the whole grid; when configuration [k] is the first whose
    evaluation raises, it does so for configurations [0 .. k-1], makes
    the calls of [k] up to the one that raises, and stops. *)
Theorem library_calls_in_index_order (hyper : ParameterGrid) (w : World) :
  well_formed w ->
  (all_valid (arrays_of w) hyper ->
   calls (snd (trainModels hyper w)) =
   calls w ++ flat_map full_calls (seq 0 (List.length hyper))) /\
  (forall k cfg e,
      nth_error hyper k = Some cfg ->
      first_failure (arrays_of w) hyper k e ->
      calls (snd (trainModels hyper w)) =
      calls w ++ flat_map full_calls (seq 0 k) ++ calls_of (arrays_of w) k cfg).
Proof.
  intros Hw. rewrite (trainModels_run hyper w Hw); cbn [snd]. split.
  - intros Hall. simpl.
    now rewrite (trace_seq_valid _ _ _ 0 (all_valid_range _ _ Hall)).
  - intros k cfg e Hcfg Hff. simpl.
    now rewrite (first_failure_trace _ _ k e cfg Hcfg Hff).
Qed.

(** C3, as the code has it: on an empty grid [trainModels] raises
    nothing; it returns [None], the slot as it was initialised, and
    leaves the world as it found it. *)
Theorem empty_grid_returns_None (w : World) :
  well_formed w -> trainModels [] w = (Return None, w).
Proof.
  intros Hw. rewrite (trainModels_run [] w Hw). simpl.
  now rewrite log_calls_nil, write_lines_nil.
Qed.

(** C6, as the code has it: [trainModels] compares no shapes.
    Whatever the training and validation sets, an empty grid gives
    [None] and no error; on a non-empty grid an exception raised by
    the library while evaluating configuration 0 reaches the caller
    after the calls made for that configuration, and no other call is
    made. *)
Theorem shape_errors_surface_in_first_iteration
        (hyper : ParameterGrid) (w : World) :
  well_formed w ->
  (hyper = [] -> fst (trainModels hyper w) = Return None) /\
  (forall cfg rest e,
      hyper = cfg :: rest ->
      evaluate (arrays_of w) cfg = Raise e ->
      fst (trainModels hyper w) = Raise e /\
      calls (snd (trainModels hyper w))
      = calls w ++ calls_of (arrays_of w) 0 cfg).
Proof.
  intros Hw. rewrite (trainModels_run hyper w Hw); cbn [fst snd]. split.
  - intros ->. reflexivity.
  - intros cfg rest e -> Hev.
    cbn [List.length seq scan trace nth_error]. rewrite Hev.
    split; [reflexivity|]. simpl. now rewrite app_nil_r.
Qed.

Lemma scan_None (hyper : ParameterGrid) (a : Arrays) (idxs : list nat) :
  forall best : option Candidate,
    scan hyper a idxs best = Return None -> idxs = [] /\ best = None.
Proof.
  induction idxs as [|idx rest IH]; intros best Hscan; cbn [scan] in Hscan.
  - injection Hscan as ->. now split.
  - exfalso.
    destruct (nth_error hyper idx) as [cfg|]; [|discriminate].
    destruct (evaluate a cfg) as [[acc svm]|e]; [|discriminate].
    destruct (IH _ Hscan) as [_ Hsel]. unfold select in Hsel.
    destruct (replaces best acc) eqn:Hr; [discriminate|].
    subst best. discriminate.
Qed.



(** ** The Best-So-Far slot *)

(** The run of [trainModels] passes through the slot values that
    [bestModel_after] names: the loop over the whole grid is the loop
    over the first [k] indices followed by the loop over the others. *)
Lemma for_range_passes_through (hyper : ParameterGrid) (a : Arrays)
      (k : nat) (w : World) :
  (k <= List.length hyper)%nat ->
  for_range hyper a (seq 0 (List.length hyper)) None w =
  bind (for_range hyper a (seq 0 k) None)
       (for_range hyper a (seq k (List.length hyper - k))) w.
Proof.
  intros Hk. rewrite <- for_range_app.
  replace (List.length hyper) with (k + (List.length hyper - k))%nat at 1
    by lia.
  now rewrite seq_app.
Qed.

Lemma bestModel_after_scan (hyper : ParameterGrid) (w : World) (k : nat) :
  bestModel_after hyper w k = scan hyper (arrays_of w) (seq 0 k) None.
Proof. unfold bestModel_after. now rewrite for_range_run. Qed.

(** C5: the slot is empty before the first iteration; iteration [k]
    either leaves it as it was or stores the candidate of
    configuration [k]; it stores it when the slot is empty or holds a
    strictly smaller accuracy, and leaves the slot alone otherwise; the
    accuracy held never decreases; and the slot after the last
    iteration is what [trainModels] returns. *)
Theorem bestModel_slot_invariant (hyper : ParameterGrid) (w : World)
        (k : nat) (best best' : option Candidate) :
  bestModel_after hyper w k = Return best ->
  bestModel_after hyper w (S k) = Return best' ->
  bestModel_after hyper w 0 = Return None /\
  (exists cfg accuracy svm,
      nth_error hyper k = Some cfg /\
      evaluate (arrays_of w) cfg = Return (accuracy, svm) /\
      (best' = best \/ best' = Some (k, accuracy, svm)) /\
      (best = None -> best' = Some (k, accuracy, svm)) /\
      (forall b, best = Some b -> cand_accuracy b < accuracy ->
                 best' = Some (k, accuracy, svm)) /\
      (forall b, best = Some b -> ~ cand_accuracy b < accuracy ->
                 best' = best)) /\
  (forall b, best = Some b ->
             exists b', best' = Some b' /\
                        cand_accuracy b <= cand_accuracy b') /\
  (well_formed w ->
   fst (trainModels hyper w) = bestModel_after hyper w (List.length hyper)).
Proof.
  rewrite !bestModel_after_scan. intros Hk HSk.
  rewrite seq_S, scan_app, Hk in HSk. cbn [Nat.add scan] in HSk.
  destruct (nth_error hyper k) as [cfg|] eqn:Hcfg; [|discriminate].
  destruct (evaluate (arrays_of w) cfg) as [[accuracy svm]|e] eqn:Hev;
    [|discriminate].
  injection HSk as <-. unfold select.
  split; [reflexivity|]. split; [|split].
  - exists cfg, accuracy, svm.
    split; [reflexivity|]. split; [exact Hev|].
    destruct best as [b|]; simpl.
    + destruct (Qltb (cand_accuracy b) accuracy) eqn:Hlt.
      * split; [now right|]. split; [discriminate|].
        split; [reflexivity|].
        intros b0 [= <-] Hn. apply Qltb_lt in Hlt. contradiction.
      * split; [now left|]. split; [discriminate|].
        split; [|reflexivity].
        intros b0 [= <-] Hl. apply Qltb_lt in Hl. congruence.
    + split; [now right|]. split; [reflexivity|].
      split; discriminate.
  - intros b ->. simpl.
    destruct (Qltb (cand_accuracy b) accuracy) eqn:Hlt.
    + eexists. split; [reflexivity|].
      apply Qltb_lt in Hlt. now apply Qlt_le_weak.
    + exists b. split; [reflexivity|apply Qle_refl].
  - intros Hw. now rewrite (trainModels_run hyper w Hw).
Qed.

End Properties.

(** ** Runs on the small library *)

Lemma demo_world_well_formed : well_formed Demo.world.
Proof. split; vm_compute; discriminate. Qed.

Lemma demo_mismatched_world_well_formed : well_formed Demo.mismatched_world.
Proof. split; vm_compute; discriminate. Qed.

Lemma demo_example_grid_valid :
  all_valid (L := Demo.lib) (arrays_of Demo.world) example_grid.
Proof.
  intros cfg [<-|[<-|[]]]; eexists; vm_compute; reflexivity.
Qed.

(** The grid [{"C": 0.1}, {"C": -1.0}, {"C": 1.0}]: its second
    configuration is rejected by [fit]. *)
Lemma demo_first_failure :
  first_failure (L := Demo.lib) (arrays_of Demo.world)
                [cfg_C_0_1; Demo.cfg_negative_C; cfg_C_1_0] 1 ValueError.
Proof.
  split.
  - exists Demo.cfg_negative_C. split; vm_compute; reflexivity.
  - intros i cfg Hi Hcfg.
    assert (i = 0%nat) as -> by lia.
    injection Hcfg as <-. eexists; vm_compute; reflexivity.
Qed.

(** An unknown keyword argument is rejected by the constructor, before
    any fit. *)
Example unknown_keyword_raises_TypeError :
  trainModels (F := Demo.frames) (L := Demo.lib)
              [Demo.cfg_unknown_key; cfg_C_1_0] Demo.world
  = (Raise TypeError, log_calls [CallSVC 0] Demo.world).
Proof. vm_compute; reflexivity. Qed.

(** Without a "class" column the prelude raises and no library call is
    made. *)
Example unlabelled_frame_raises_KeyError :
  trainModels (F := Demo.frames) (L := Demo.lib) example_grid
              Demo.unlabelled_world
  = (Raise (KeyError "['class'] not found in axis"), Demo.unlabelled_world).
Proof. vm_compute; reflexivity. Qed.

(** [inplace=True] would have rewritten the receiver: the frame loses
    its "class" column and the call returns [None]. *)
Example drop_inplace_rewrites_receiver :
  DataFrame_drop (F := Demo.frames) "class" true Demo.validation_1_feature
  = Return (None, {| columns := ["f0"]; data := [[1]; [0]]%Q |}) /\
  DataFrame_drop (F := Demo.frames) "class" false Demo.validation_1_feature
  = Return (Some {| columns := ["f0"]; data := [[1]; [0]]%Q |},
            Demo.validation_1_feature).
Proof. split; vm_compute; reflexivity. Qed.

Lemma trainModels_returns_maximum_witness :
  well_formed Demo.world /\
  example_grid <> [] /\
  all_valid (L := Demo.lib) (arrays_of Demo.world) example_grid /\
  exists c : Candidate,
    fst (trainModels (F := Demo.frames) (L := Demo.lib) example_grid Demo.world)
    = Return (Some c) /\
    (exists cfg, nth_error example_grid (cand_idx c) = Some cfg /\
                 evaluate (L := Demo.lib) (arrays_of Demo.world) cfg
                 = Return (cand_accuracy c, cand_svm c)) /\
    forall cfg acc svm,
      In cfg example_grid ->
      evaluate (L := Demo.lib) (arrays_of Demo.world) cfg
      = Return (acc, svm) ->
      acc <= cand_accuracy c.
Proof.
  split; [exact demo_world_well_formed|].
  split; [discriminate|].
  split; [exact demo_example_grid_valid|].
  apply (trainModels_returns_maximum (F := Demo.frames) (L := Demo.lib)
                                     example_grid Demo.world).
  - exact demo_world_well_formed.
  - discriminate.
  - exact demo_example_grid_valid.
Defined.

(** C1 as stated fails on [{"C": 1.0}, {"C": -1.0}]: the grid is not
    empty and its first configuration is evaluated successfully, yet
    no accuracy is returned, because the second one makes the whole
    search raise. *)
Lemma partly_valid_grid_returns_nothing :
  [cfg_C_1_0; Demo.cfg_negative_C] <> [] /\
  (exists r, evaluate (L := Demo.lib) (arrays_of Demo.world) cfg_C_1_0
             = Return r) /\
  fst (trainModels (F := Demo.frames) (L := Demo.lib)
                   [cfg_C_1_0; Demo.cfg_negative_C]
                   Demo.world) = Raise ValueError /\
  ~ exists c : Candidate,
      fst (trainModels (F := Demo.frames) (L := Demo.lib)
                       [cfg_C_1_0; Demo.cfg_negative_C]
                       Demo.world) = Return (Some c).
Proof.
  split; [discriminate|].
  split; [eexists; vm_compute; reflexivity|].
  split; [vm_compute; reflexivity|].
  intros [c Hc]. vm_compute in Hc. discriminate.
Qed.

Lemma failing_configuration_aborts_witness :
  well_formed Demo.world /\
  first_failure (L := Demo.lib) (arrays_of Demo.world)
                [cfg_C_0_1; Demo.cfg_negative_C; cfg_C_1_0] 1 ValueError /\
  fst (trainModels (F := Demo.frames) (L := Demo.lib)
                   [cfg_C_0_1; Demo.cfg_negative_C; cfg_C_1_0] Demo.world)
  = Raise ValueError /\
  bestModel_after (L := Demo.lib)
                  [cfg_C_0_1; Demo.cfg_negative_C; cfg_C_1_0] Demo.world 2
  = Raise ValueError /\
  forall c,
    In c (calls (snd (trainModels (F := Demo.frames) (L := Demo.lib)
                        [cfg_C_0_1; Demo.cfg_negative_C; cfg_C_1_0]
                        Demo.world))) ->
    In c (calls Demo.world) \/ (call_idx c <= 1)%nat.
Proof.
  split; [exact demo_world_well_formed|].
  split; [exact demo_first_failure|].
  apply (failing_configuration_aborts (F := Demo.frames) (L := Demo.lib)
           [cfg_C_0_1; Demo.cfg_negative_C; cfg_C_1_0] Demo.world
           1 ValueError).
  - exact demo_world_well_formed.
  - exact demo_first_failure.
Defined.

(** C2 as stated fails: inserting the invalid [{"C": -1.0}] into the
    worked grid turns the selection of index 1 into an exception, and
    the configuration after the invalid one is never constructed. *)
Lemma invalid_configuration_aborts_search :
  fst (trainModels (F := Demo.frames) (L := Demo.lib) example_grid Demo.world)
  = Return (Some (1%nat, 23 # 25,
                  {| Demo.params := cfg_C_1_0;
                     Demo.n_features_in := Some 2%nat |})) /\
  evaluate (L := Demo.lib) (arrays_of Demo.world) Demo.cfg_negative_C
  = Raise ValueError /\
  fst (trainModels (F := Demo.frames) (L := Demo.lib)
                   [cfg_C_0_1; Demo.cfg_negative_C; cfg_C_1_0] Demo.world)
  = Raise ValueError /\
  calls (snd (trainModels (F := Demo.frames) (L := Demo.lib)
                [cfg_C_0_1; Demo.cfg_negative_C; cfg_C_1_0] Demo.world))
  = [CallSVC 0; CallFit 0; CallPredict 0; CallScore 0; CallSVC 1; CallFit 1].
Proof. repeat split; vm_compute; reflexivity. Qed.

Lemma empty_grid_returns_None_witness :
  well_formed Demo.world /\
  trainModels (F := Demo.frames) (L := Demo.lib)
              [] Demo.world = (Return None, Demo.world).
Proof.
  split; [exact demo_world_well_formed|].
  apply (empty_grid_returns_None (F := Demo.frames) (L := Demo.lib) Demo.world).
  exact demo_world_well_formed.
Defined.

(** C3 as stated fails: on the empty grid no error of any kind is
    raised; the call returns [None]. *)
Lemma empty_grid_raises_nothing :
  fst (trainModels (F := Demo.frames) (L := Demo.lib)
                   [] Demo.world) = Return None /\
  forall e, fst (trainModels (F := Demo.frames) (L := Demo.lib)
                             [] Demo.world) <> Raise e.
Proof.
  split; [vm_compute; reflexivity|].
  intros e He. vm_compute in He. discriminate.
Qed.

(** The grid [{"C": 0.1}, {"C": 1.0}, {"C": 1.0}]: indices 1 and 2
    tie at the maximal accuracy 23/25. *)
Lemma first_maximum_wins_witness :
  exists c : Candidate,
    fst (trainModels (F := Demo.frames) (L := Demo.lib)
                     [cfg_C_0_1; cfg_C_1_0; cfg_C_1_0]
                     Demo.world) = Return (Some c) /\
    (cand_idx c <= 1)%nat /\ cand_idx c <> 2%nat /\
    cand_accuracy c == 23 # 25.
Proof.
  destruct (first_maximum_wins (F := Demo.frames) (L := Demo.lib)
              [cfg_C_0_1; cfg_C_1_0; cfg_C_1_0] Demo.world 1 2
              cfg_C_1_0 cfg_C_1_0 (23 # 25) (23 # 25)
              {| Demo.params := cfg_C_1_0; Demo.n_features_in := Some 2%nat |}
              {| Demo.params := cfg_C_1_0; Demo.n_features_in := Some 2%nat |})
    as (c & Hret & Hle & Hne & Hacc & _).
  - exact demo_world_well_formed.
  - lia.
  - reflexivity.
  - reflexivity.
  - vm_compute; reflexivity.
  - vm_compute; reflexivity.
  - reflexivity.
  - intros cfg [<-|[<-|[<-|[]]]]; do 2 eexists;
      (split; [vm_compute; reflexivity|]); unfold Qle; simpl; lia.
  - exists c. repeat split; assumption.
Defined.

Lemma bestModel_slot_invariant_witness :
  bestModel_after (L := Demo.lib) example_grid Demo.world 0 = Return None /\
  bestModel_after (L := Demo.lib) example_grid Demo.world 1
  = Return (Some (0%nat, 20 # 25,
                  {| Demo.params := cfg_C_0_1;
                     Demo.n_features_in := Some 2%nat |})) /\
  bestModel_after (L := Demo.lib) example_grid Demo.world 2
  = Return (Some (1%nat, 23 # 25,
                  {| Demo.params := cfg_C_1_0;
                     Demo.n_features_in := Some 2%nat |})) /\
  fst (trainModels (F := Demo.frames) (L := Demo.lib) example_grid Demo.world)
  = bestModel_after (L := Demo.lib) example_grid Demo.world 2.
Proof.
  destruct (bestModel_slot_invariant (F := Demo.frames) (L := Demo.lib)
                                     example_grid Demo.world 1
              (Some (0%nat, 20 # 25,
                     {| Demo.params := cfg_C_0_1;
                        Demo.n_features_in := Some 2%nat |}))
              (Some (1%nat, 23 # 25,
                     {| Demo.params := cfg_C_1_0;
                        Demo.n_features_in := Some 2%nat |})))
    as (H0 & _ & _ & Hfinal).
  - vm_compute; reflexivity.
  - vm_compute; reflexivity.
  - split; [exact H0|].
    split; [vm_compute; reflexivity|].
    split; [vm_compute; reflexivity|].
    exact (Hfinal demo_world_well_formed).
Defined.

Lemma shape_errors_surface_in_first_iteration_witness :
  well_formed Demo.mismatched_world /\
  evaluate (L := Demo.lib) (arrays_of Demo.mismatched_world) cfg_C_1_0
  = Raise ValueError /\
  fst (trainModels (F := Demo.frames) (L := Demo.lib)
                   [cfg_C_1_0] Demo.mismatched_world)
  = Raise ValueError /\
  calls (snd (trainModels (F := Demo.frames) (L := Demo.lib)
                          [cfg_C_1_0] Demo.mismatched_world))
  = calls Demo.mismatched_world
    ++ calls_of (L := Demo.lib) (arrays_of Demo.mismatched_world) 0 cfg_C_1_0.
Proof.
  split; [exact demo_mismatched_world_well_formed|].
  split; [vm_compute; reflexivity|].
  destruct (shape_errors_surface_in_first_iteration
              (F := Demo.frames) (L := Demo.lib)
              [cfg_C_1_0] Demo.mismatched_world
              demo_mismatched_world_well_formed) as [_ Hraise].
  apply (Hraise cfg_C_1_0 [] ValueError); [reflexivity|].
  vm_compute; reflexivity.
Defined.

(** C6 as stated fails: with two training features and one validation
    feature, the empty grid gives [None] and no error; and on a
    one-configuration grid the error comes out of [predict], after
    the configuration has been constructed and fitted. *)
Lemma mismatched_features_unchecked :
  map (@List.length Q)
      (features (arrays_of Demo.mismatched_world)) = [2; 2; 2; 2]%nat /\
  map (@List.length Q)
      (validationFeatures (arrays_of Demo.mismatched_world)) = [1; 1]%nat /\
  fst (trainModels (F := Demo.frames) (L := Demo.lib)
                   [] Demo.mismatched_world) = Return None /\
  trainModels (F := Demo.frames) (L := Demo.lib)
              [cfg_C_1_0] Demo.mismatched_world
  = (Raise ValueError,
     log_calls [CallSVC 0; CallFit 0; CallPredict 0] Demo.mismatched_world).
Proof. repeat split; vm_compute; reflexivity. Qed.


Lemma example_grid_selects_second_witness :
  fst (trainModels (F := Demo.frames) (L := Demo.lib) example_grid Demo.world)
  = Return (Some (1%nat, 23 # 25,
                  {| Demo.params := cfg_C_1_0;
                     Demo.n_features_in := Some 2%nat |})).
Proof.
  apply (example_grid_selects_second (F := Demo.frames) (L := Demo.lib)
                                     Demo.world
           (20 # 25) (23 # 25)
           {| Demo.params := cfg_C_0_1; Demo.n_features_in := Some 2%nat |}
           {| Demo.params := cfg_C_1_0; Demo.n_features_in := Some 2%nat |}).
  - exact demo_world_well_formed.
  - vm_compute; reflexivity.
  - vm_compute; reflexivity.
  - reflexivity.
  - reflexivity.
Defined.

Lemma library_calls_in_index_order_witness :
  calls (snd (trainModels (F := Demo.frames) (L := Demo.lib)
                          example_grid Demo.world))
  = [CallSVC 0; CallFit 0; CallPredict 0; CallScore 0;
     CallSVC 1; CallFit 1; CallPredict 1; CallScore 1] /\
  calls (snd (trainModels (F := Demo.frames) (L := Demo.lib)
                [cfg_C_0_1; Demo.cfg_negative_C; cfg_C_1_0] Demo.world))
  = [CallSVC 0; CallFit 0; CallPredict 0; CallScore 0;
     CallSVC 1; CallFit 1].
Proof.
  split.
  - destruct (library_calls_in_index_order (F := Demo.frames) (L := Demo.lib)
                example_grid Demo.world demo_world_well_formed)
      as [Hall _].
    rewrite (Hall demo_example_grid_valid). reflexivity.
  - destruct (library_calls_in_index_order (F := Demo.frames) (L := Demo.lib)
                [cfg_C_0_1; Demo.cfg_negative_C; cfg_C_1_0] Demo.world
                demo_world_well_formed) as [_ Hfail].
    rewrite (Hfail 1%nat Demo.cfg_negative_C ValueError eq_refl
                   demo_first_failure).
    vm_compute; reflexivity.
Defined.

(** C10 as stated fails on [{"C": -1.0}, {"C": 1.0}]: the second
    configuration evaluates on its own, but the search never
    constructs, fits or scores it. *)
Lemma later_configuration_never_fitted :
  (exists r, evaluate (L := Demo.lib) (arrays_of Demo.world) cfg_C_1_0
             = Return r) /\
  calls (snd (trainModels (F := Demo.frames) (L := Demo.lib)
                [Demo.cfg_negative_C; cfg_C_1_0] Demo.world))
  = [CallSVC 0; CallFit 0] /\
  ~ In (CallFit 1)
       (calls (snd (trainModels (F := Demo.frames) (L := Demo.lib)
                      [Demo.cfg_negative_C; cfg_C_1_0] Demo.world))).
Proof.
  split; [eexists; vm_compute; reflexivity|].
  split; [vm_compute; reflexivity|].
  vm_compute. intros [H|[H|[]]]; discriminate.
Qed.

(** ** Further properties of the search *)

Section MoreProperties.

Context {F : FrameMessages} {L : Sklearn}.

Lemma scan_seq_returns_inv (hyper : ParameterGrid) (a : Arrays) (n : nat) :
  forall (s : nat) (best r : option Candidate),
    scan hyper a (seq s n) best = Return r ->
    forall i, (s <= i < s + n)%nat ->
              exists cfg res, nth_error hyper i = Some cfg /\
                              evaluate a cfg = Return res.
Proof.
  induction n as [|n IH]; intros s best r Hscan i Hi; [lia|].
  cbn [seq scan] in Hscan.
  destruct (nth_error hyper s) as [cfg|] eqn:Hcfg; [|discriminate].
  destruct (evaluate a cfg) as [[acc svm]|e] eqn:Hev; [|discriminate].
  destruct (Nat.eq_dec i s) as [->|Hne].
  - now exists cfg, (acc, svm).
  - apply (IH _ _ _ Hscan). lia.
Qed.

Lemma scan_seq_raises_inv (hyper : ParameterGrid) (a : Arrays) (n : nat) :
  forall (s : nat) (best : option Candidate) (e : Exn),
    (s + n <= List.length hyper)%nat ->
    scan hyper a (seq s n) best = Raise e ->
    exists k cfg,
      (s <= k < s + n)%nat /\ nth_error hyper k = Some cfg /\
      evaluate a cfg = Raise e /\
      forall i cfg', (s <= i < k)%nat -> nth_error hyper i = Some cfg' ->
                     exists r, evaluate a cfg' = Return r.
Proof.
  induction n as [|n IH]; intros s best e Hlen Hscan;
    cbn [seq scan] in Hscan; [discriminate|].
  destruct (nth_error hyper s) as [cfg|] eqn:Hcfg;
    [|apply nth_error_None in Hcfg; lia].
  destruct (evaluate a cfg) as [[acc svm]|e'] eqn:Hev.
  - destruct (IH (S s) _ e ltac:(lia) Hscan)
      as (k & cfgk & Hk & Hcfgk & Hevk & Hbefore).
    exists k, cfgk.
    split; [lia|]. split; [exact Hcfgk|]. split; [exact Hevk|].
    intros i cfg' Hi Hcfg'.
    destruct (Nat.eq_dec i s) as [->|Hne].
    + rewrite Hcfg in Hcfg'. injection Hcfg' as <-. now exists (acc, svm).
    + apply (Hbefore i cfg'); [lia|assumption].
  - injection Hscan as ->. exists s, cfg.
    split; [lia|]. split; [exact Hcfg|]. split; [exact Hev|].
    intros i cfg' Hi. lia.
Qed.

Lemma printed_above_slot (hyper : ParameterGrid) (a : Arrays) (n : nat) :
  forall (s : nat) (best : option Candidate) (l : Line),
    In l (printed hyper a (seq s n) best) ->
    (s <= line_idx l < s + n)%nat /\
    forall b, best = Some b -> cand_accuracy b < line_accuracy l.
Proof.
  induction n as [|n IH]; intros s best l Hin; cbn [seq printed] in Hin;
    [contradiction|].
  destruct (nth_error hyper s) as [cfg|]; [|contradiction].
  destruct (evaluate a cfg) as [[acc svm]|e]; [|contradiction].
  apply in_app_or in Hin as [Hin|Hin].
  - destruct (replaces best acc) eqn:Hr; [|contradiction].
    destruct Hin as [<-|[]]. simpl. split; [lia|].
    intros b ->. simpl in Hr. now apply Qltb_lt.
  - destruct (IH _ _ _ Hin) as [Hidx Hacc]. split; [lia|].
    intros b ->. unfold select in Hacc.
    destruct (replaces (Some b) acc) eqn:Hr.
    + simpl in Hr. apply Qltb_lt in Hr.
      eapply Qlt_trans; [exact Hr|].
      apply (Hacc (s, acc, svm) eq_refl).
    + now apply Hacc.
Qed.

Lemma printed_sorted (hyper : ParameterGrid) (a : Arrays) (n : nat) :
  forall (s : nat) (best : option Candidate),
    StronglySorted line_lt (printed hyper a (seq s n) best).
Proof.
  induction n as [|n IH]; intros s best; cbn [seq printed];
    [constructor|].
  destruct (nth_error hyper s) as [cfg|]; [|constructor].
  destruct (evaluate a cfg) as [[acc svm]|e]; [|constructor].
  unfold select.
  destruct (replaces best acc) eqn:Hr; cbn [app]; [|apply IH].
  constructor; [apply IH|].
  apply Forall_forall. intros l Hin.
  destruct (printed_above_slot _ _ _ _ _ _ Hin) as [Hidx Hacc].
  split; simpl; [lia|]. apply (Hacc (s, acc, svm) eq_refl).
Qed.

Lemma printed_last (hyper : ParameterGrid) (a : Arrays) (idxs : list nat) :
  forall (best : option Candidate) (c : Candidate),
    scan hyper a idxs best = Return (Some c) ->
    (best = Some c /\ printed hyper a idxs best = []) \/
    exists ls, printed hyper a idxs best
               = ls ++ [BestModelLine (cand_idx c) (cand_accuracy c)].
Proof.
  induction idxs as [|idx rest IH]; intros best c Hscan;
    cbn [scan printed] in Hscan |- *.
  - injection Hscan as ->. now left.
  - destruct (nth_error hyper idx) as [cfg|]; [|discriminate].
    destruct (evaluate a cfg) as [[acc svm]|e]; [|discriminate].
    destruct (IH _ _ Hscan) as [[Hsel Hnil]|[ls Hls]].
    + rewrite Hnil, app_nil_r. unfold select in Hsel.
      destruct (replaces best acc).
      * right. exists []. injection Hsel as <-. reflexivity.
      * now left.
    + right. rewrite Hls.
      exists ((if replaces best acc then [BestModelLine idx acc] else [])
                ++ ls).
      now rewrite app_assoc.
Qed.

(** X1: when one of the two frames has no "class" column,
    [trainModels] raises, whatever the grid, the [KeyError] that [drop]
    raises for the label "class" (its argument is the message of the
    frame library, not the label), and leaves the world as it found
    it; and the search makes no library call at all exactly when the
    grid is empty or a frame has no "class" column. *)
Theorem no_library_call_iff_empty_or_unlabelled
        (hyper : ParameterGrid) (w : World) :
  (~ well_formed w ->
   trainModels hyper w = (Raise (KeyError (not_in_axis "class")), w)) /\
  (calls (snd (trainModels hyper w)) = calls w <->
   hyper = [] \/ ~ well_formed w).
Proof.
  split; [apply trainModels_unlabelled|].
  destruct (well_formed_dec w) as [Hw|Hw].
  - rewrite (trainModels_run hyper w Hw); cbn [snd]. simpl. split.
    + intros Hcalls. left.
      destruct hyper as [|cfg rest]; [reflexivity|exfalso].
      cbn [List.length seq trace nth_error] in Hcalls.
      apply (f_equal (@List.length Call)) in Hcalls.
      rewrite length_app in Hcalls. unfold calls_of in Hcalls.
      simpl in Hcalls. lia.
    + intros [->|Hn]; [|contradiction]. simpl. apply app_nil_r.
  - rewrite (trainModels_unlabelled hyper w Hw); cbn [snd].
    split; [now right|reflexivity].
Qed.

(** X2: a candidate returned by [trainModels] certifies a complete
    search: the grid is not empty, every configuration evaluated
    without raising, the four library calls were made for each index
    in order, and the candidate is the evaluation of the configuration
    at its index. *)
Theorem returned_candidate_certifies_full_search
        (hyper : ParameterGrid) (w : World) (c : Candidate) :
  fst (trainModels hyper w) = Return (Some c) ->
  hyper <> [] /\
  all_valid (arrays_of w) hyper /\
  calls (snd (trainModels hyper w))
  = calls w ++ flat_map full_calls (seq 0 (List.length hyper)) /\
  (cand_idx c < List.length hyper)%nat /\
  exists cfg, nth_error hyper (cand_idx c) = Some cfg /\
              evaluate (arrays_of w) cfg
              = Return (cand_accuracy c, cand_svm c).
Proof.
  destruct (well_formed_dec w) as [Hw|Hw];
    [|rewrite (trainModels_unlabelled hyper w Hw); discriminate].
  rewrite (trainModels_run hyper w Hw); cbn [fst snd]. intros Hscan.
  pose proof (scan_seq_returns_inv _ _ _ _ _ _ Hscan) as Hvalid.
  destruct (scan_seq_max _ _ _ _ _ _ Hscan)
    as (_ & _ & [E|(Hrange & Hcfg & _)]); [discriminate|].
  split; [intros ->; simpl in Hrange; lia|].
  split.
  - intros cfg Hin. destruct (In_grid_index _ _ Hin) as (i & Hi & Hnth).
    destruct (Hvalid i Hi) as (cfg' & res & Hnth' & Hev).
    rewrite Hnth in Hnth'. injection Hnth' as <-. now exists res.
  - split; [simpl; now rewrite (trace_seq_valid _ _ _ 0 Hvalid)|].
    split; [lia|exact Hcfg].
Qed.

(** X3: every exception that leaves [trainModels] is either the
    [KeyError] that [drop] raises for the label "class" on a frame
    without that column (with the message of the frame library as
    its argument), or the exception raised by the library for the
    first configuration whose evaluation fails; indexing the grid
    never raises. *)
Theorem exceptions_come_from_frames_or_library
        (hyper : ParameterGrid) (w : World) (e : Exn) :
  fst (trainModels hyper w) = Raise e ->
  (~ well_formed w /\ e = KeyError (not_in_axis "class")) \/
  (well_formed w /\
   exists k, first_failure (arrays_of w) hyper k e).
Proof.
  destruct (well_formed_dec w) as [Hw|Hw].
  - rewrite (trainModels_run hyper w Hw); cbn [fst]. intros Hscan. right.
    split; [exact Hw|].
    destruct (scan_seq_raises_inv hyper (arrays_of w) (List.length hyper)
                0 None e (Nat.le_refl _) Hscan)
      as (k & cfg & Hk & Hcfg & Hev & Hbefore).
    exists k. split; [now exists cfg|].
    intros i cfg' Hi. apply Hbefore. lia.
  - rewrite (trainModels_unlabelled hyper w Hw); cbn [fst].
    intros [= <-]. now left.
Qed.

(** X4: the lines printed by a search that returns a candidate: they
    announce configurations of increasing index and strictly
    increasing accuracy, and the last one announces the index and the
    accuracy of the returned candidate. *)
Theorem printed_lines_track_best
        (hyper : ParameterGrid) (w : World) (c : Candidate) :
  fst (trainModels hyper w) = Return (Some c) ->
  exists lines,
    stdout (snd (trainModels hyper w))
    = stdout w ++ lines ++ [BestModelLine (cand_idx c) (cand_accuracy c)] /\
    StronglySorted line_lt
      (lines ++ [BestModelLine (cand_idx c) (cand_accuracy c)]).
Proof.
  destruct (well_formed_dec w) as [Hw|Hw];
    [|rewrite (trainModels_unlabelled hyper w Hw); discriminate].
  rewrite (trainModels_run hyper w Hw); cbn [fst snd]. intros Hscan.
  destruct (printed_last _ _ _ _ _ Hscan) as [[E _]|[ls Hls]];
    [discriminate|].
  exists ls. simpl. rewrite <- Hls. split; [reflexivity|].
  apply printed_sorted.
Qed.

(** ** Growing the grid *)

Lemma scan_grid_app (h more : ParameterGrid) (a : Arrays) (idxs : list nat) :
  (forall i, In i idxs -> (i < List.length h)%nat) ->
  forall best : option Candidate,
    scan (h ++ more) a idxs best = scan h a idxs best.
Proof.
  induction idxs as [|idx rest IH]; intros Hin best; cbn [scan];
    [reflexivity|].
  rewrite (nth_error_app1 h more (Hin idx (or_introl eq_refl))).
  destruct (nth_error h idx) as [cfg|]; [|reflexivity].
  destruct (evaluate a cfg) as [[acc svm]|e]; [|reflexivity].
  apply IH. intros i Hi. apply Hin. now right.
Qed.

Lemma appended_range_valid (h more : ParameterGrid) (a : Arrays) :
  all_valid a more ->
  forall i, (List.length h <= i < List.length h + List.length more)%nat ->
            exists cfg r, nth_error (h ++ more) i = Some cfg /\
                          evaluate a cfg = Return r.
Proof.
  intros Hall i Hi. rewrite nth_error_app2 by lia.
  destruct (nth_error more (i - List.length h)) as [cfg|] eqn:Hcfg;
    [|apply nth_error_None in Hcfg; lia].
  destruct (Hall cfg (nth_error_In _ _ Hcfg)) as [r Hr].
  now exists cfg, r.
Qed.

(** X5: appending valid configurations to a grid never lowers the
    accuracy returned: the search on the longer grid returns either
    the very candidate of the shorter grid, or a candidate taken from
    the appended configurations whose accuracy is strictly higher. *)
Theorem extending_grid_never_lowers_accuracy
        (h more : ParameterGrid) (w : World) (c : Candidate) :
  fst (trainModels h w) = Return (Some c) ->
  all_valid (arrays_of w) more ->
  exists c' : Candidate,
    fst (trainModels (h ++ more) w) = Return (Some c') /\
    cand_accuracy c <= cand_accuracy c' /\
    (c' = c \/
     ((List.length h <= cand_idx c')%nat /\
      cand_accuracy c < cand_accuracy c')).
Proof.
  destruct (well_formed_dec w) as [Hw|Hw];
    [|rewrite (trainModels_unlabelled h w Hw); discriminate].
  rewrite !(trainModels_run _ w Hw); cbn [fst]. intros Hscan Hmore.
  rewrite length_app, seq_app, scan_app, scan_grid_app, Hscan
    by (intros i Hi; apply in_seq in Hi; lia).
  cbn [Nat.add].
  destruct (scan_seq_returns (h ++ more) (arrays_of w) (List.length more)
              (List.length h) (Some c) (appended_range_valid h more _ Hmore))
    as (best' & Hs & Hnone).
  destruct best' as [c'|]; [|destruct (Hnone eq_refl); discriminate].
  exists c'. split; [exact Hs|].
  destruct (scan_seq_max _ _ _ _ _ _ Hs) as (Hge & _ & Hsrc).
  split; [apply (Hge c eq_refl)|].
  destruct Hsrc as [[= ->]|(Hrange & _ & Hlt & _)]; [now left|right].
  split; [lia|apply (Hlt c eq_refl)].
Qed.

(** ** Features and labels *)

Lemma index_of_bound (label : string) (cols : list string) (i : nat) :
  index_of label cols = Some i -> (i < List.length cols)%nat.
Proof.
  revert i. induction cols as [|c cols IH]; intros i; simpl;
    [discriminate|].
  destruct (String.eqb c label).
  - intros [= <-]. lia.
  - destruct (index_of label cols) as [j|]; simpl; [|discriminate].
    intros [= <-]. specialize (IH j eq_refl). lia.
Qed.

Lemma index_of_In (label : string) (cols : list string) :
  index_of label cols <> None <-> In label cols.
Proof.
  induction cols as [|c cols IH]; simpl; [tauto|].
  destruct (String.eqb_spec c label) as [->|Hne].
  - split; [now left|discriminate].
  - destruct (index_of label cols) as [j|]; simpl.
    + split; [intros _; right; apply IH; discriminate|discriminate].
    + split; [congruence|].
      intros [E|Hin]; [contradiction|]. now apply IH in Hin.
Qed.

Lemma drop_cells_absent (label : string) (cols : list string) :
  ~ In label cols ->
  forall row : list Q, drop_cells label cols row = row.
Proof.
  induction cols as [|c cols IH]; intros Hn row; destruct row as [|x row];
    simpl; try reflexivity.
  destruct (String.eqb_spec c label) as [->|Hne].
  - exfalso. apply Hn. now left.
  - rewrite IH; [reflexivity|]. intros Hin. apply Hn. now right.
Qed.

Lemma drop_cells_once (label : string) (cols : list string) :
  forall (row : list Q) (i : nat),
    index_of label cols = Some i ->
    count_occ string_dec cols label = 1%nat ->
    List.length row = List.length cols ->
    drop_cells label cols row = firstn i row ++ skipn (S i) row.
Proof.
  induction cols as [|c cols IH]; intros row i Hi Hc Hlen;
    [discriminate|].
  destruct row as [|x row]; [discriminate|].
  simpl in Hi, Hc, Hlen |- *.
  destruct (String.eqb_spec c label) as [->|Hne].
  - injection Hi as <-.
    destruct (string_dec label label) as [_|Hn]; [|contradiction].
    simpl. apply drop_cells_absent.
    apply (count_occ_not_In string_dec). lia.
  - destruct (string_dec c label) as [E|_]; [contradiction|].
    destruct (index_of label cols) as [j|]; simpl in Hi; [|discriminate].
    injection Hi as <-.
    rewrite (IH row j eq_refl Hc) by lia. reflexivity.
Qed.

Lemma insert_at_removed (i : nat) :
  forall row : list Q,
    (i < List.length row)%nat ->
    insert_at i (nth i row 0) (firstn i row ++ skipn (S i) row) = row.
Proof.
  unfold insert_at.
  induction i as [|i IH]; intros row Hi; destruct row as [|x row];
    simpl in Hi; try lia.
  - reflexivity.
  - specialize (IH row ltac:(lia)). simpl in IH |- *. now rewrite IH.
Qed.

Lemma frame_rebuilt_from_parts (label : string) (df : DataFrame) (i : nat) :
  index_of label (columns df) = Some i ->
  count_occ string_dec (columns df) label = 1%nat ->
  rectangular df ->
  map (fun p => insert_at i (snd p) (fst p))
      (combine (data (drop_columns label df))
               (map (fun row => nth i row 0) (data df)))
  = data df.
Proof.
  intros Hi Hc Hrect. unfold drop_columns; simpl.
  unfold rectangular in Hrect.
  induction Hrect as [|row rows Hrow _ IH]; simpl; [reflexivity|].
  rewrite IH. f_equal.
  rewrite (drop_cells_once _ _ _ _ Hi Hc Hrow).
  apply insert_at_removed. rewrite Hrow. exact (index_of_bound _ _ _ Hi).
Qed.

Lemma get_arrays_returns (w w' : World) (a : Arrays) :
  get_arrays w = (Return a, w') ->
  well_formed w /\ a = arrays_of w /\ w' = w.
Proof.
  intros Hget. destruct (well_formed_dec w) as [Hw|Hw].
  - rewrite (get_arrays_run w Hw) in Hget.
    injection Hget as <- <-. split; [exact Hw|split; reflexivity].
  - rewrite (get_arrays_raises w Hw) in Hget. discriminate.
Qed.

(** X6: the arrays that lines 284-289 hand to the library keep the
    samples aligned and lose nothing.  Features and labels have the
    same number of samples, for training and for validation; and in a
    frame whose rows have one cell per column and which holds exactly
    one "class" column, putting each label back at the position of
    that column in its features row gives back the rows of the
    frame. *)
Theorem features_and_classes_rebuild_frames (w w' : World) (a : Arrays) :
  get_arrays w = (Return a, w') ->
  List.length (features a) = List.length (classes a) /\
  List.length (validationFeatures a) = List.length (validationClasses a) /\
  (rectangular (trainingDF w) ->
   count_occ string_dec (columns (trainingDF w)) "class" = 1%nat ->
   exists i,
     index_of "class" (columns (trainingDF w)) = Some i /\
     map (fun p => insert_at i (snd p) (fst p))
         (combine (features a) (classes a)) = data (trainingDF w)) /\
  (rectangular (validationDF w) ->
   count_occ string_dec (columns (validationDF w)) "class" = 1%nat ->
   exists i,
     index_of "class" (columns (validationDF w)) = Some i /\
     map (fun p => insert_at i (snd p) (fst p))
         (combine (validationFeatures a) (validationClasses a))
     = data (validationDF w)).
Proof.
  intros Hget. destruct (get_arrays_returns _ _ _ Hget) as ([Ht Hv] & -> & _).
  unfold has_class in Ht, Hv. unfold arrays_of, DataFrame_getitem; simpl.
  destruct (index_of "class" (columns (trainingDF w))) as [i|] eqn:Ei;
    [|congruence].
  destruct (index_of "class" (columns (validationDF w))) as [j|] eqn:Ej;
    [|congruence].
  split; [now rewrite !length_map|]. split; [now rewrite !length_map|].
  split.
  - intros Hrect Hc. exists i. split; [reflexivity|].
    exact (frame_rebuilt_from_parts "class" (trainingDF w) i Ei Hc Hrect).
  - intros Hrect Hc. exists j. split; [reflexivity|].
    exact (frame_rebuilt_from_parts "class" (validationDF w) j Ej Hc Hrect).
Qed.

(** ** The training and testing cells *)

Lemma training_cell_run (hyper : ParameterGrid) (w : World) :
  training_cell hyper w =
  (match fst (trainModels hyper w) with
   | Return (Some c) => Return c
   | Return None => Raise TypeError
   | Raise e => Raise e
   end, snd (trainModels hyper w)).
Proof.
  unfold training_cell, bind.
  destruct (trainModels hyper w) as [[[[[idx accuracy] svm]|]|e] w'];
    reflexivity.
Qed.

Lemma trainModels_None_empty (hyper : ParameterGrid) (w : World) :
  fst (trainModels hyper w) = Return None -> hyper = [].
Proof.
  destruct (well_formed_dec w) as [Hw|Hw];
    [|rewrite (trainModels_unlabelled hyper w Hw); discriminate].
  rewrite (trainModels_run hyper w Hw); cbn [fst]. intros Hscan.
  destruct (scan_None _ _ _ _ Hscan) as [Hseq _].
  destruct hyper; [reflexivity|discriminate].
Qed.

(** X7: the training cell unpacks what [trainModels] returns.  It
    prints and calls exactly what [trainModels] does; it binds a
    triple exactly when [trainModels] returns one; on an empty grid
    the unpacking of [None] raises [TypeError]; and on a non-empty
    grid its exceptions are exactly those of [trainModels]. *)
Theorem training_cell_unpacks (hyper : ParameterGrid) (w : World) :
  snd (training_cell hyper w) = snd (trainModels hyper w) /\
  (forall c, fst (training_cell hyper w) = Return c <->
             fst (trainModels hyper w) = Return (Some c)) /\
  (hyper = [] -> well_formed w ->
   fst (training_cell hyper w) = Raise TypeError) /\
  (hyper <> [] ->
   forall e, fst (training_cell hyper w) = Raise e <->
             fst (trainModels hyper w) = Raise e).
Proof.
  rewrite training_cell_run; cbn [fst snd].
  split; [reflexivity|]. split; [|split].
  - intros c.
    destruct (fst (trainModels hyper w)) as [[c'|]|e];
      split; intros H; try discriminate; congruence.
  - intros -> Hw. rewrite (trainModels_run [] w Hw). reflexivity.
  - intros Hne e.
    destruct (fst (trainModels hyper w)) as [[c'|]|e'] eqn:Hr.
    + split; intros H; discriminate.
    + exfalso. exact (Hne (trainModels_None_empty _ _ Hr)).
    + split; intros [= ->]; reflexivity.
Qed.

(** X8: when the search returns a candidate, the testing cell is run
    on the model held by that candidate, the one fitted with the
    configuration of maximal validation accuracy, and nothing is
    fitted again: the number reported is the score, against the
    "class" column of the testing frame, of what that model predicts
    for the other columns; on a testing frame without a "class"
    column the [drop] of line 349 raises its [KeyError] for that
    label (with the message of the frame library as its argument),
    after the whole search has run. *)
Theorem test_accuracy_is_of_selected_model
        (hyper : ParameterGrid) (testingDF : DataFrame) (w : World)
        (c : Candidate) :
  fst (trainModels hyper w) = Return (Some c) ->
  train_then_test hyper testingDF w
  = (testing_cell testingDF (cand_svm c), snd (trainModels hyper w)) /\
  (exists cfg, nth_error hyper (cand_idx c) = Some cfg /\
               evaluate (arrays_of w) cfg
               = Return (cand_accuracy c, cand_svm c)) /\
  (forall cfg acc svm,
      In cfg hyper -> evaluate (arrays_of w) cfg = Return (acc, svm) ->
      acc <= cand_accuracy c) /\
  (has_class testingDF ->
   exists classes,
     DataFrame_getitem "class" testingDF = Return classes /\
     testing_cell testingDF (cand_svm c)
     = and_then (SVC_predict (cand_svm c)
                             (data (drop_columns "class" testingDF)))
                (accuracy_score classes)) /\
  (~ has_class testingDF ->
   testing_cell testingDF (cand_svm c)
   = Raise (KeyError (not_in_axis "class"))).
Proof.
  intros Hret. split; [|split; [|split; [|split]]].
  - unfold train_then_test, bind, lift.
    rewrite training_cell_run, Hret. reflexivity.
  - destruct (well_formed_dec w) as [Hw|Hw];
      [|rewrite (trainModels_unlabelled hyper w Hw) in Hret; discriminate].
    rewrite (trainModels_run hyper w Hw) in Hret; cbn [fst] in Hret.
    destruct (scan_seq_max _ _ _ _ _ _ Hret)
      as (_ & _ & [E|(_ & Hcfg & _)]); [discriminate|exact Hcfg].
  - destruct (well_formed_dec w) as [Hw|Hw];
      [|rewrite (trainModels_unlabelled hyper w Hw) in Hret; discriminate].
    rewrite (trainModels_run hyper w Hw) in Hret; cbn [fst] in Hret.
    destruct (scan_seq_max _ _ _ _ _ _ Hret) as (_ & Hmax & _).
    intros cfg acc svm Hin Hev.
    destruct (In_grid_index _ _ Hin) as (i & Hi & Hnth).
    exact (Hmax i cfg acc svm Hi Hnth Hev).
  - unfold has_class, testing_cell, DataFrame_drop, DataFrame_getitem.
    intros Hc.
    destruct (index_of "class" (columns testingDF)) as [i|]; [|congruence].
    eexists. split; [reflexivity|]. simpl.
    destruct (SVC_predict (cand_svm c)
                (map (drop_cells "class" (columns testingDF))
                     (data testingDF))); reflexivity.
  - unfold has_class, testing_cell, DataFrame_drop. intros Hc.
    destruct (index_of "class" (columns testingDF)) as [i|];
      [exfalso; apply Hc; discriminate|reflexivity].
Qed.

End MoreProperties.

(** ** The split cell *)

Section SplitCell.

Context {S : Splitter}.

(** What the split cell relies on: [train_test_split] deals the rows
    of its argument into two parts, losing and repeating none. *)
Hypothesis split_partitions :
  forall X a b, train_test_split X = Return (a, b) -> Permutation (a ++ b) X.

Lemma DataFrame_of_array_returns (arr : ndarray2) (names : list string)
      (df : DataFrame) :
  DataFrame_of_array arr names = Return df ->
  columns df = names /\ data df = arr /\ rectangular df.
Proof.
  unfold DataFrame_of_array, rectangular.
  destruct (forallb _ arr) eqn:Hall; [|discriminate].
  intros [= <-]. simpl. split; [reflexivity|]. split; [reflexivity|].
  apply Forall_forall. intros row Hin.
  rewrite forallb_forall in Hall. apply Nat.eqb_eq. now apply Hall.
Qed.

(** X9: when the split cell completes, the training, validation and
    testing frames together hold exactly the rows of the scaled
    array, each row in one frame only (counting repetitions), so
    their sizes add up to its size; the three frames carry the given
    column names and have one cell per column; and when "class" is
    among the names, [trainModels] finds the "class" column it needs
    in the training and validation frames. *)
Theorem split_cell_partitions_rows
        (scaledWineNDArray : ndarray2) (names : list string) (s : Splits) :
  split_cell scaledWineNDArray names = Return s ->
  Permutation (data (split_training s) ++ data (split_validation s)
                 ++ data (split_testing s)) scaledWineNDArray /\
  (List.length (data (split_training s))
   + List.length (data (split_validation s))
   + List.length (data (split_testing s))
   = List.length scaledWineNDArray)%nat /\
  (columns (split_training s) = names /\
   columns (split_validation s) = names /\
   columns (split_testing s) = names) /\
  (rectangular (split_training s) /\ rectangular (split_validation s) /\
   rectangular (split_testing s)) /\
  (In "class" names -> well_formed (world_of_splits s)).
Proof.
  unfold split_cell, and_then.
  destruct (train_test_split scaledWineNDArray) as [[training temp]|e]
    eqn:H1; [|discriminate].
  destruct (train_test_split temp) as [[validation testing]|e] eqn:H2;
    [|discriminate].
  destruct (DataFrame_of_array training names) as [t|e] eqn:Ht;
    [|discriminate].
  destruct (DataFrame_of_array validation names) as [v|e] eqn:Hv;
    [|discriminate].
  destruct (DataFrame_of_array testing names) as [x|e] eqn:Hx;
    [|discriminate].
  intros [= <-]. cbn [split_training split_validation split_testing].
  destruct (DataFrame_of_array_returns _ _ _ Ht) as (Ct & Dt & Rt).
  destruct (DataFrame_of_array_returns _ _ _ Hv) as (Cv & Dv & Rv).
  destruct (DataFrame_of_array_returns _ _ _ Hx) as (Cx & Dx & Rx).
  assert (Hperm : Permutation (data t ++ data v ++ data x)
                              scaledWineNDArray).
  { rewrite Dt, Dv, Dx.
    etransitivity; [|exact (split_partitions _ _ _ H1)].
    apply Permutation_app_head. exact (split_partitions _ _ _ H2). }
  split; [exact Hperm|]. split.
  - apply Permutation_length in Hperm.
    rewrite !length_app in Hperm. lia.
  - split; [now repeat split|]. split; [now repeat split|].
    intros Hin. unfold well_formed, has_class, world_of_splits; simpl.
    rewrite Ct, Cv. split; now apply index_of_In.
Qed.

End SplitCell.

(** ** The scaling cell *)

Section ScalingCell.

Context {F : FrameMessages} {Sc : Scaler}.

Lemma index_of_last (label : string) (feats : list string) :
  ~ In label feats ->
  index_of label (feats ++ [label]) = Some (List.length feats).
Proof.
  induction feats as [|c feats IH]; intros Hn; simpl.
  - now rewrite String.eqb_refl.
  - destruct (String.eqb_spec c label) as [->|Hne].
    + exfalso. apply Hn. now left.
    + rewrite IH; [reflexivity|]. intros Hin. apply Hn. now right.
Qed.

Lemma count_occ_last (label : string) (feats : list string) :
  ~ In label feats ->
  count_occ string_dec (feats ++ [label]) label = 1%nat.
Proof.
  intros Hn. rewrite count_occ_app. simpl.
  destruct (string_dec label label) as [_|Hne]; [|contradiction].
  apply (count_occ_not_In string_dec) in Hn. lia.
Qed.

Lemma add_series_combine (series : ndarray1) (rows : ndarray2) :
  forall r : nat,
    (r + List.length rows <= List.length series)%nat ->
    add_series series r rows
    = map (fun p => map Some (fst p) ++ [Some (snd p)])
          (combine rows (skipn r series)).
Proof.
  induction rows as [|row rows IH]; intros r Hlen; simpl; [reflexivity|].
  simpl in Hlen.
  destruct (skipn r series) as [|x rest] eqn:Hskip.
  - apply (f_equal (@List.length Q)) in Hskip.
    rewrite length_skipn in Hskip. simpl in Hskip. lia.
  - assert (Hnth : nth_error series r = Some x).
    { rewrite <- (firstn_skipn r series), Hskip.
      rewrite nth_error_app2; rewrite length_firstn; [|lia].
      replace (r - Nat.min r (List.length series))%nat with 0%nat by lia.
      reflexivity. }
    assert (Hrest : skipn (S r) series = rest).
    { replace (S r) with (1 + r)%nat by lia.
      rewrite <- skipn_skipn, Hskip. reflexivity. }
    rewrite Hnth, (IH (S r)) by lia. now rewrite Hrest.
Qed.

Lemma last_cell_of_row (i : nat) (row : list Q) (x : Q) :
  List.length row = i ->
  nth i (map Some row ++ [Some x]) None = Some x.
Proof.
  intros <-. rewrite app_nth2; rewrite length_map; [|lia].
  now rewrite Nat.sub_diag.
Qed.

Lemma last_cells_of_rows (i : nat) (rows : ndarray2) :
  Forall (fun row => List.length row = i) rows ->
  forall series : ndarray1,
    List.length series = List.length rows ->
    map (fun row => nth i row None)
        (map (fun p => map Some (fst p) ++ [Some (snd p)])
             (combine rows series))
    = map Some series.
Proof.
  induction 1 as [|row rows Hrow _ IH]; intros series Hslen;
    destruct series as [|x series]; simpl in Hslen |- *;
    try discriminate; [reflexivity|].
  rewrite (last_cell_of_row _ _ _ Hrow), IH by lia. reflexivity.
Qed.

(** X10: when "class" is the last column of the original frame, and
    no other column has that name, the scaled frame is labelled
    correctly.  For a frame
    with at least one row and one cell per column, and a scaler that
    returns an array of the shape it was given, the scaling cell
    completes; the frame it builds carries the original column names;
    each of its rows is the scaled features row followed by the class
    of that row of the original frame; and its "class" column is the
    "class" column of the original frame, without NaN. *)
Theorem scaling_cell_keeps_labels_when_class_is_last
        (wineDF : DataFrame) (feats : list string) (scaled : ndarray2) :
  columns wineDF = feats ++ ["class"] ->
  ~ In "class" feats ->
  rectangular wineDF ->
  data wineDF <> [] ->
  fit_transform (data (drop_columns "class" wineDF)) = Return scaled ->
  map (@List.length Q) scaled
  = map (@List.length Q) (data (drop_columns "class" wineDF)) ->
  exists (f : ScaledFrame) (series : ndarray1),
    scaling_cell wineDF = Return f /\
    DataFrame_getitem "class" wineDF = Return series /\
    scaled_columns f = columns wineDF /\
    scaled_data f
    = map (fun p => map Some (fst p) ++ [Some (snd p)])
          (combine scaled series) /\
    scaled_column "class" f = Some (map Some series).
Proof.
  intros Hcols Hnin Hrect Hne Hfit Hshape.
  set (i := List.length feats).
  assert (Hi : index_of "class" (columns wineDF) = Some i)
    by (rewrite Hcols; now apply index_of_last).
  assert (Hc : count_occ string_dec (columns wineDF) "class" = 1%nat)
    by (rewrite Hcols; now apply count_occ_last).
  assert (Hwidth : Forall (fun row => List.length row = i)
                          (data (drop_columns "class" wineDF))).
  { unfold drop_columns; simpl. apply Forall_map.
    unfold rectangular in Hrect.
    apply (Forall_impl _ (P := fun row =>
                                 List.length row
                                 = List.length (columns wineDF)));
      [|exact Hrect].
    intros row Hrow. rewrite (drop_cells_once _ _ _ _ Hi Hc Hrow).
    rewrite Hcols, length_app in Hrow. simpl in Hrow.
    rewrite length_app, length_firstn, length_skipn. fold i in Hrow. lia. }
  assert (Hswidth : Forall (fun row => List.length row = i) scaled).
  { apply Forall_map with (f := @List.length Q) (P := fun n => n = i).
    rewrite Hshape. now apply Forall_map. }
  assert (Hrows : List.length scaled = List.length (data wineDF)).
  { apply (f_equal (@List.length nat)) in Hshape.
    rewrite !length_map in Hshape. unfold drop_columns in Hshape.
    simpl in Hshape. now rewrite length_map in Hshape. }
  set (series := map (fun row => nth i row 0) (data wineDF)).
  assert (Hslen : List.length series = List.length scaled)
    by (unfold series; now rewrite length_map).
  assert (Hhd : List.length (hd [] scaled) = i).
  { destruct scaled as [|row0 rest].
    - destruct (data wineDF); [contradiction|discriminate].
    - simpl. now inversion Hswidth. }
  exists {| scaled_columns := columns wineDF;
            scaled_data := add_series series 0 scaled |}, series.
  assert (Hdata : add_series series 0 scaled
                  = map (fun p => map Some (fst p) ++ [Some (snd p)])
                        (combine scaled series)).
  { rewrite add_series_combine by (simpl; lia). reflexivity. }
  split.
  - unfold scaling_cell, and_then, DataFrame_drop, DataFrame_getitem.
    rewrite Hi. simpl. unfold drop_columns in Hfit. simpl in Hfit.
    rewrite Hfit. fold series. unfold relabel.
    rewrite Hhd, Hcols, length_app. simpl. fold i.
    replace (i + 1 =? S i)%nat with true
      by (symmetry; apply Nat.eqb_eq; lia).
    now rewrite <- Hcols.
  - split; [unfold DataFrame_getitem; now rewrite Hi|].
    split; [reflexivity|]. split; [exact Hdata|].
    unfold scaled_column; simpl. rewrite Hi, Hdata. f_equal.
    now apply last_cells_of_rows.
Qed.

End ScalingCell.

(** ** How much the search calls, and what a failure leaves behind *)

Section CallsAndFailures.

Context {F : FrameMessages} {L : Sklearn}.







End CallsAndFailures.

(** ** More runs on the small library *)

Lemma demo_unlabelled_world_not_well_formed :
  ~ well_formed Demo.unlabelled_world.
Proof. intros [H _]. apply H. vm_compute. reflexivity. Qed.

Lemma demo_example_grid_returns :
  fst (trainModels (F := Demo.frames) (L := Demo.lib) example_grid Demo.world)
  = Return (Some (1%nat, 23 # 25,
                  {| Demo.params := cfg_C_1_0;
                     Demo.n_features_in := Some 2%nat |})).
Proof. vm_compute; reflexivity. Qed.

Lemma demo_halves_partition (X a b : ndarray2) :
  DemoSplit.halves X = Return (a, b) -> Permutation (a ++ b) X.
Proof.
  unfold DemoSplit.halves.
  destruct (List.length X <? 2)%nat; [discriminate|].
  intros [= <- <-]. now rewrite firstn_skipn.
Qed.

(** With the "class" column first, the cell completes all the same,
    but the name "class" ends up on the first scaled feature and the
    class values under the name of the last feature. *)
Example class_first_is_mislabelled :
  exists f,
    scaling_cell (F := Demo.frames) (Sc := DemoSplit.doubling)
                 DemoSplit.wine_class_first
    = Return f /\
    DataFrame_getitem "class" DemoSplit.wine_class_first = Return [7; 8] /\
    scaled_column "class" f = Some [Some (2 * 1); Some (2 * 2)] /\
    scaled_column "f1" f = Some [Some 7; Some 8].
Proof. eexists. repeat split; vm_compute; reflexivity. Qed.

Lemma no_library_call_iff_empty_or_unlabelled_witness :
  trainModels (F := Demo.frames) (L := Demo.lib)
              example_grid Demo.unlabelled_world
  = (Raise (KeyError "['class'] not found in axis"),
     Demo.unlabelled_world) /\
  calls (snd (trainModels (F := Demo.frames) (L := Demo.lib) [] Demo.world))
  = calls Demo.world.
Proof.
  destruct (no_library_call_iff_empty_or_unlabelled
              (F := Demo.frames) (L := Demo.lib)
              example_grid Demo.unlabelled_world) as [Hraise _].
  destruct (no_library_call_iff_empty_or_unlabelled
              (F := Demo.frames) (L := Demo.lib)
              [] Demo.world) as [_ [_ Hcalls]].
  split.
  - exact (Hraise demo_unlabelled_world_not_well_formed).
  - apply Hcalls. now left.
Defined.

Lemma returned_candidate_certifies_full_search_witness :
  example_grid <> [] /\
  all_valid (L := Demo.lib) (arrays_of Demo.world) example_grid /\
  calls (snd (trainModels (F := Demo.frames) (L := Demo.lib)
                          example_grid Demo.world))
  = calls Demo.world ++ flat_map full_calls (seq 0 2).
Proof.
  destruct (returned_candidate_certifies_full_search
              (F := Demo.frames) (L := Demo.lib)
              example_grid Demo.world _ demo_example_grid_returns)
    as (Hne & Hall & Hcalls & _).
  split; [exact Hne|]. split; [exact Hall|exact Hcalls].
Defined.

Lemma exceptions_come_from_frames_or_library_witness :
  exists k,
    first_failure (L := Demo.lib) (arrays_of Demo.world)
                  [cfg_C_0_1; Demo.cfg_negative_C; cfg_C_1_0] k ValueError.
Proof.
  destruct (exceptions_come_from_frames_or_library
              (F := Demo.frames) (L := Demo.lib)
              [cfg_C_0_1; Demo.cfg_negative_C; cfg_C_1_0] Demo.world
              ValueError)
    as [[Hn _]|[_ Hk]].
  - vm_compute; reflexivity.
  - exfalso. exact (Hn demo_world_well_formed).
  - exact Hk.
Defined.

Lemma printed_lines_track_best_witness :
  exists lines,
    stdout (snd (trainModels (F := Demo.frames) (L := Demo.lib)
                             example_grid Demo.world))
    = stdout Demo.world ++ lines ++ [BestModelLine 1 (23 # 25)] /\
    StronglySorted line_lt (lines ++ [BestModelLine 1 (23 # 25)]).
Proof.
  exact (printed_lines_track_best (F := Demo.frames) (L := Demo.lib)
                                  example_grid Demo.world
           _ demo_example_grid_returns).
Defined.

Lemma extending_grid_never_lowers_accuracy_witness :
  exists c' : Candidate,
    fst (trainModels (F := Demo.frames) (L := Demo.lib)
                     ([cfg_C_0_1] ++ [cfg_C_1_0]) Demo.world)
    = Return (Some c') /\
    20 # 25 <= cand_accuracy c'.
Proof.
  destruct (extending_grid_never_lowers_accuracy
              (F := Demo.frames) (L := Demo.lib)
              [cfg_C_0_1] [cfg_C_1_0] Demo.world
              (0%nat, 20 # 25,
               {| Demo.params := cfg_C_0_1;
                  Demo.n_features_in := Some 2%nat |}))
    as (c' & Hret & Hle & _).
  - vm_compute; reflexivity.
  - intros cfg [<-|[]]. eexists. vm_compute; reflexivity.
  - exists c'. split; [exact Hret|exact Hle].
Defined.

Lemma features_and_classes_rebuild_frames_witness :
  exists i,
    index_of "class" (columns Demo.training) = Some i /\
    map (fun p => insert_at i (snd p) (fst p))
        (combine (features (arrays_of Demo.world))
                 (classes (arrays_of Demo.world)))
    = data Demo.training.
Proof.
  destruct (features_and_classes_rebuild_frames (F := Demo.frames)
              Demo.world Demo.world (arrays_of Demo.world))
    as (_ & _ & Htrain & _).
  - vm_compute; reflexivity.
  - apply Htrain.
    + unfold rectangular. repeat constructor.
    + vm_compute; reflexivity.
Defined.

Lemma training_cell_unpacks_witness :
  fst (training_cell (F := Demo.frames) (L := Demo.lib)
                     [] Demo.world) = Raise TypeError /\
  fst (training_cell (F := Demo.frames) (L := Demo.lib) example_grid Demo.world)
  = Return (1%nat, 23 # 25,
            {| Demo.params := cfg_C_1_0;
               Demo.n_features_in := Some 2%nat |}).
Proof.
  destruct (training_cell_unpacks (F := Demo.frames) (L := Demo.lib)
                                  [] Demo.world)
    as (_ & _ & Hempty & _).
  destruct (training_cell_unpacks (F := Demo.frames) (L := Demo.lib)
                                  example_grid Demo.world)
    as (_ & Hret & _).
  split.
  - exact (Hempty eq_refl demo_world_well_formed).
  - apply Hret. exact demo_example_grid_returns.
Defined.

Lemma test_accuracy_is_of_selected_model_witness :
  train_then_test (F := Demo.frames) (L := Demo.lib)
                  example_grid Demo.validation Demo.world
  = (testing_cell (F := Demo.frames) (L := Demo.lib) Demo.validation
                  {| Demo.params := cfg_C_1_0;
                     Demo.n_features_in := Some 2%nat |},
     snd (trainModels (F := Demo.frames) (L := Demo.lib)
                      example_grid Demo.world)) /\
  testing_cell (F := Demo.frames) (L := Demo.lib) Demo.validation
               {| Demo.params := cfg_C_1_0;
                  Demo.n_features_in := Some 2%nat |}
  = Return (23 # 25).
Proof.
  destruct (test_accuracy_is_of_selected_model
              (F := Demo.frames) (L := Demo.lib)
              example_grid Demo.validation Demo.world _
              demo_example_grid_returns) as (Hrun & _).
  split; [exact Hrun|vm_compute; reflexivity].
Defined.

Lemma split_cell_partitions_rows_witness :
  exists s,
    split_cell (S := DemoSplit.splitter) DemoSplit.scaled DemoSplit.names
    = Return s /\
    Permutation (data (split_training s) ++ data (split_validation s)
                   ++ data (split_testing s)) DemoSplit.scaled /\
    well_formed (world_of_splits s).
Proof.
  eexists. split; [vm_compute; reflexivity|].
  destruct (split_cell_partitions_rows (S := DemoSplit.splitter)
              demo_halves_partition DemoSplit.scaled DemoSplit.names _
              eq_refl) as (Hperm & _ & _ & _ & Hwf).
  split; [exact Hperm|].
  apply Hwf. vm_compute. tauto.
Defined.

Lemma scaling_cell_keeps_labels_when_class_is_last_witness :
  exists f,
    scaling_cell (F := Demo.frames) (Sc := DemoSplit.doubling)
                 DemoSplit.wine = Return f /\
    scaled_column "class" f = Some [Some 7; Some 8].
Proof.
  destruct (scaling_cell_keeps_labels_when_class_is_last
              (F := Demo.frames) (Sc := DemoSplit.doubling)
              DemoSplit.wine ["f0"; "f1"]
              [[2 * 1; 2 * 5]; [2 * 2; 2 * 6]]%Q)
    as (f & series & Hrun & Hseries & _ & _ & Hclass).
  - reflexivity.
  - simpl. intros [H|[H|[]]]; discriminate.
  - unfold rectangular. repeat constructor.
  - discriminate.
  - vm_compute; reflexivity.
  - reflexivity.
  - exists f. split; [exact Hrun|].
    rewrite Hclass. vm_compute in Hseries.
    injection Hseries as <-. reflexivity.
Defined.

(** C4 as stated fails on [{"C": 1.0}, {"C": 1.0}, {"C": -1.0}]:
    the first two configurations have the same validation accuracy,
    and no configuration has a higher one, yet neither is returned,
    because the third makes the whole search raise. *)
Lemma tied_maximum_before_failure_returns_nothing :
  evaluate (L := Demo.lib) (arrays_of Demo.world) cfg_C_1_0
  = Return (23 # 25,
            {| Demo.params := cfg_C_1_0;
               Demo.n_features_in := Some 2%nat |}) /\
  evaluate (L := Demo.lib) (arrays_of Demo.world) Demo.cfg_negative_C
  = Raise ValueError /\
  fst (trainModels (F := Demo.frames) (L := Demo.lib)
                   [cfg_C_1_0; cfg_C_1_0; Demo.cfg_negative_C] Demo.world)
  = Raise ValueError /\
  ~ exists c : Candidate,
      fst (trainModels (F := Demo.frames) (L := Demo.lib)
                       [cfg_C_1_0; cfg_C_1_0; Demo.cfg_negative_C]
                       Demo.world) = Return (Some c).
Proof.
  split; [vm_compute; reflexivity|].
  split; [vm_compute; reflexivity|].
  split; [vm_compute; reflexivity|].
  intros [c Hc]. vm_compute in Hc. discriminate.
Qed.


